(** * Pandoc GUI server: a shallow embedding of [server.js]

    The server accepts uploads, builds a [pandoc] command line by string
    concatenation, runs it through [child_process.exec], and streams the
    result back (one file, or a ZIP archive for a batch).  This file
    embeds the command builder, the extension table, the single converter
    and the two conversion endpoints, and states the properties of the
    specification over them.

    JavaScript strings are modelled as [string]; [a +:+ b] is string
    concatenation.  The Node runtime (JSON parser, [path] module, the
    external engine reached through [exec]) is an interface, [Runtime]. *)

From Stdlib Require Import Ascii.
From stdpp Require Import base strings list gmap pretty.

#[local] Set Warnings "-register-all".

(** ** Strings *)

(** The double-quote character, [String.fromCharCode(34)]. *)
Definition dq : string := String "034"%char EmptyString.

(** [s.includes(p)]: [p] occurs in [s] as a contiguous substring. *)
Fixpoint includes (s p : string) : bool :=
  String.prefix p s ||
  match s with
  | EmptyString => false
  | String _ s' => includes s' p
  end.

(** Characters that separate the interpolated values from the fixed text of
    the command line: the space and the double quote. *)
Definition is_delim (c : ascii) : bool :=
  bool_decide (c = " "%char) || bool_decide (c = "034"%char).

Fixpoint delim_free (p : string) : bool :=
  match p with
  | EmptyString => true
  | String c p' => negb (is_delim c) && delim_free p'
  end.

(** ** JavaScript values *)

(** The values that can reach the code under study: what [JSON.parse]
    produces, [undefined], and the built-in objects reachable through the
    prototype of an object literal.  Numbers are kept as integers; only
    whether a number is zero is ever observed. *)
Inductive jsval : Type :=
| JUndefined
| JNull
| JBool (b : bool)
| JNum (z : Z)
| JStr (s : string)
| JArr (elems : list jsval)
| JObj (props : list (string * jsval))
| JFun (name : string)
| JObjectPrototype.

(** ToBoolean. *)
Definition truthy (v : jsval) : bool :=
  match v with
  | JUndefined | JNull => false
  | JBool b => b
  | JNum z => negb (bool_decide (z = 0%Z))
  | JStr s => negb (bool_decide (s = ""))
  | JArr _ | JObj _ | JFun _ | JObjectPrototype => true
  end.

(** ToString, as applied by a template literal.  An array is joined with
    commas, [null] and [undefined] elements giving the empty string. *)
Fixpoint toString (v : jsval) : string :=
  match v with
  | JUndefined => "undefined"
  | JNull => "null"
  | JBool true => "true"
  | JBool false => "false"
  | JNum z => pretty z
  | JStr s => s
  | JArr elems =>
      (fix join (l : list jsval) : string :=
         match l with
         | [] => ""
         | x :: rest =>
             let text := match x with JUndefined | JNull => "" | _ => toString x end in
             match rest with
             | [] => text
             | _ :: _ => text +:+ "," +:+ join rest
             end
         end) elems
  | JObj _ | JObjectPrototype => "[object Object]"
  | JFun name => "function " +:+ name +:+ "() { [native code] }"
  end.

(** [a || b] on values. *)
Definition js_or (a b : jsval) : jsval := if truthy a then a else b.

(** Lookup among the own properties of an object, listed once each. *)
Fixpoint own_property (props : list (string * jsval)) (key : string) : option jsval :=
  match props with
  | [] => None
  | (k, v) :: rest => if bool_decide (k = key) then Some v else own_property rest key
  end.

(** The properties every object literal inherits from [Object.prototype]:
    eleven built-in functions and the [__proto__] accessor, which yields
    [Object.prototype] itself. *)
Definition Object_prototype_functions : list (string * string) :=
  [ ("constructor", "Object");
    ("__defineGetter__", "__defineGetter__");
    ("__defineSetter__", "__defineSetter__");
    ("hasOwnProperty", "hasOwnProperty");
    ("__lookupGetter__", "__lookupGetter__");
    ("__lookupSetter__", "__lookupSetter__");
    ("isPrototypeOf", "isPrototypeOf");
    ("propertyIsEnumerable", "propertyIsEnumerable");
    ("toString", "toString");
    ("valueOf", "valueOf");
    ("toLocaleString", "toLocaleString") ].

Definition inherited_property (key : string) : option jsval :=
  if bool_decide (key = "__proto__") then Some JObjectPrototype
  else JFun <$> (list_to_map Object_prototype_functions : gmap string string) !! key.

(** [obj[key]] for an object literal with the given own properties: own
    property, else inherited property, else [undefined]. *)
Definition get_property (props : list (string * jsval)) (key : string) : jsval :=
  match own_property props key with
  | Some v => v
  | None => default JUndefined (inherited_property key)
  end.

(** ** Results and exceptions *)

Inductive result (A : Type) : Type :=
| Ok (a : A)
| Throw (message : string).
Arguments Ok {A} a.
Arguments Throw {A} message.

(** [options.name] for one of the option names read by the command builder
    ([toc], [numberSections], [css], [bibliography]).  Reading a property
    of [null] or [undefined] throws a [TypeError]; primitives, arrays and
    functions have no property of these names. *)
Definition option_member (options : jsval) (name : string) : result jsval :=
  match options with
  | JNull | JUndefined =>
      Throw ("Cannot read properties of " +:+ toString options +:+
             " (reading '" +:+ name +:+ "')")
  | JObj props => Ok (get_property props name)
  | _ => Ok JUndefined
  end.

(** ** Helper function to get output extension *)

Definition extensions : list (string * jsval) :=
  [ ("markdown", JStr ".md");
    ("html", JStr ".html");
    ("docx", JStr ".docx");
    ("odt", JStr ".odt");
    ("epub", JStr ".epub");
    ("pdf", JStr ".pdf");
    ("latex", JStr ".tex");
    ("rst", JStr ".rst");
    ("textile", JStr ".textile");
    ("org", JStr ".org");
    ("mediawiki", JStr ".wiki");
    ("rtf", JStr ".rtf");
    ("plain", JStr ".txt");
    ("json", JStr ".json") ].

(** [extensions[format] || '.txt'] *)
Definition getOutputExtension (format : string) : jsval :=
  js_or (get_property extensions format) (JStr ".txt").

(** The fourteen output formats of the catalog served by [/api/formats],
    with their extensions. *)
Definition output_catalog : list (string * string) :=
  [ ("markdown", ".md"); ("html", ".html"); ("docx", ".docx");
    ("odt", ".odt"); ("epub", ".epub"); ("pdf", ".pdf");
    ("latex", ".tex"); ("rst", ".rst"); ("textile", ".textile");
    ("org", ".org"); ("mediawiki", ".wiki"); ("rtf", ".rtf");
    ("plain", ".txt"); ("json", ".json") ].

(** ** Build Pandoc command with comprehensive options *)

(** [if (cond) { cmd += flag; }] *)
Definition add_if (cond : bool) (flag : string) (cmd : string) : string :=
  if cond then cmd +:+ flag else cmd.

Definition standalone_flag : string := " --standalone".
Definition toc_flag : string := " --toc --toc-depth=6".
Definition extract_media_flag : string := " --extract-media=./uploads/media".

Definition standalone_targets : list string := ["html"; "docx"; "odt"; "epub"; "pdf"].
Definition toc_targets : list string := ["html"; "pdf"; "docx"; "epub"].
Definition media_sources : list string := ["docx"; "odt"; "epub"].

(** [list.includes(x)] on an array of strings. *)
Definition array_includes (l : list string) (x : string) : bool :=
  bool_decide (x ∈ l).

(** The option values the builder reads, after ToBoolean. *)
Record OptionFlags : Type := mkOptionFlags {
  opt_toc : bool;
  opt_numberSections : bool;
  opt_css : bool;
  opt_bibliography : bool
}.

(** The first statement of [buildPandocCommand]: the template literal
    [`pandoc "${inputPath}" -f ${fromFormat} -t ${toFormat} -o "${outputPath}"`]. *)
Definition command_template (inputPath outputPath fromFormat toFormat : string) : string :=
  "pandoc " +:+ dq +:+ inputPath +:+ dq +:+ " -f " +:+ fromFormat +:+
  " -t " +:+ toFormat +:+ " -o " +:+ dq +:+ outputPath +:+ dq.

(** The statements that follow it, each [cmd += ...], in source order. *)
Definition append_flags (fromFormat toFormat : string) (o : OptionFlags) (cmd : string) : string :=
  (* Standalone document with proper headers *)
  let cmd := add_if (array_includes standalone_targets toFormat) standalone_flag cmd in
  (* Table of contents for supported formats *)
  let cmd := add_if (opt_toc o && array_includes toc_targets toFormat) toc_flag cmd in
  (* Number sections *)
  let cmd := add_if (opt_numberSections o) " --number-sections" cmd in
  (* Preserve formatting *)
  let cmd := cmd +:+ " --preserve-tabs" in
  (* Handle images - extract and embed *)
  let cmd := add_if (array_includes media_sources fromFormat) extract_media_flag cmd in
  (* For HTML output, add CSS and better formatting *)
  let cmd :=
    if bool_decide (toFormat = "html")
    then add_if (opt_css o) " --css=style.css" (cmd +:+ " --self-contained --mathjax")
    else cmd in
  (* For PDF output, use appropriate engine *)
  let cmd :=
    if bool_decide (toFormat = "pdf")
    then (cmd +:+ " --pdf-engine=pdflatex") +:+ " --variable=geometry:margin=1in"
    else cmd in
  (* For DOCX output, preserve styling *)
  let cmd := add_if (bool_decide (toFormat = "docx")) " --reference-doc=reference.docx" cmd in
  (* Smart typography *)
  let cmd := cmd +:+ " --smart" in
  (* Syntax highlighting for code blocks *)
  let cmd := cmd +:+ " --highlight-style=pygments" in
  (* Handle line breaks properly *)
  let cmd := cmd +:+ " --wrap=preserve" in
  (* Citations and bibliography *)
  let cmd := add_if (opt_bibliography o) " --citeproc" cmd in
  cmd.

(** The body of [buildPandocCommand] once the option reads have succeeded. *)
Definition buildPandocCommand_body
    (inputPath outputPath fromFormat toFormat : string) (o : OptionFlags) : string :=
  append_flags fromFormat toFormat o
    (command_template inputPath outputPath fromFormat toFormat).

(** Reading the options: [options = {}] is the default for an [undefined]
    argument; every read goes to the same value, so the first one
    ([options.toc], always evaluated) decides whether a [TypeError] is
    thrown. *)
Definition read_options (options : jsval) : result OptionFlags :=
  let options := match options with JUndefined => JObj [] | _ => options end in
  match option_member options "toc" with
  | Throw e => Throw e
  | Ok toc =>
    match option_member options "numberSections" with
    | Throw e => Throw e
    | Ok numberSections =>
      match option_member options "css" with
      | Throw e => Throw e
      | Ok css =>
        match option_member options "bibliography" with
        | Throw e => Throw e
        | Ok bibliography =>
            Ok (mkOptionFlags (truthy toc) (truthy numberSections)
                              (truthy css) (truthy bibliography))
        end
      end
    end
  end.

Definition buildPandocCommand
    (inputPath outputPath fromFormat toFormat : string) (options : jsval) : result string :=
  match read_options options with
  | Throw e => Throw e
  | Ok o => Ok (buildPandocCommand_body inputPath outputPath fromFormat toFormat o)
  end.

(** Whether the option [name] is set: the value read from the options is
    truthy. *)
Definition option_set (options : jsval) (name : string) : bool :=
  let options := match options with JUndefined => JObj [] | _ => options end in
  match option_member options name with
  | Ok v => truthy v
  | Throw _ => false
  end.

(** The flags as the engine sees them on its command line, without the
    separating space. *)
Definition standalone_token : string := "--standalone".
Definition toc_depth_token : string := "--toc-depth=6".
Definition extract_media_token : string := "--extract-media=./uploads/media".

(** None of the four interpolated strings contains the text [p]. *)
Definition free_of (p inputPath outputPath fromFormat toFormat : string) : Prop :=
  includes inputPath p = false ∧ includes outputPath p = false ∧
  includes fromFormat p = false ∧ includes toFormat p = false.

(** ** The Node runtime and the operating system *)

(** What the server can observe of the machine: the files present in the
    scratch directories and the clock read by [Date.now()]. *)
Record OS : Type := mkOS {
  os_files : gset string;
  os_clock : N
}.

(** What [exec] hands to its callback: [error] is [null] on exit code 0 and
    otherwise an [Error] whose message is recorded here. *)
Record ExecOutcome : Type := mkExecOutcome {
  exec_error : option string;
  exec_stdout : string;
  exec_stderr : string
}.

(** Library functions and the external engine.  [JSON_parse] throws a
    [SyntaxError] on malformed text; [path_parse_name p] is
    [path.parse(p).name]; [exec] runs a shell command to completion and may
    change the machine in any way. *)
Class Runtime : Type := mkRuntime {
  JSON_parse : string → result jsval;
  path_parse_name : string → string;
  path_join : string → string → string;
  path_basename : string → string;
  exec : string → OS → ExecOutcome * OS
}.

(** Server-side state during one request: the machine, and the commands
    handed to [exec] so far, oldest first. *)
Record St : Type := mkSt {
  st_os : OS;
  st_executed : list string
}.

(** Computations that read and change the state and may throw. *)
Definition M (A : Type) : Type := St → result A * St.

#[global] Instance M_ret : MRet M := λ A a st, (Ok a, st).

#[global] Instance M_bind : MBind M :=
  λ A B k m st,
    match m st with
    | (Ok a, st') => k a st'
    | (Throw e, st') => (Throw e, st')
    end.

(** [try { body } catch (error) { handler(error.message) }] *)
Definition try_catch {A} (body : M A) (handler : string → M A) : M A :=
  λ st, match body st with
        | (Ok a, st') => (Ok a, st')
        | (Throw e, st') => handler e st'
        end.

(** [for (const x of xs) { await body(x); }] *)
Fixpoint for_each {A} (xs : list A) (body : A → M unit) : M unit :=
  match xs with
  | [] => mret tt
  | x :: rest => body x ;; for_each rest body
  end.

(** [Date.now()] *)
Definition Date_now : M N := λ st, (Ok (os_clock (st_os st)), st).

(** [fs.unlink(path)]: removes the file, or rejects when it is absent. *)
Definition unlink (path : string) : M unit :=
  λ st,
    if bool_decide (path ∈ os_files (st_os st))
    then (Ok tt, mkSt (mkOS (os_files (st_os st) ∖ {[path]}) (os_clock (st_os st)))
                      (st_executed st))
    else (Throw ("ENOENT: no such file or directory, unlink '" +:+ path +:+ "'"), st).

(** [fs.createWriteStream(path)]: the file exists from then on. *)
Definition createWriteStream (path : string) : M unit :=
  λ st, (Ok tt, mkSt (mkOS ({[path]} ∪ os_files (st_os st)) (os_clock (st_os st)))
                     (st_executed st)).

(** ** Requests and responses *)

(** A file as stored by the upload middleware. *)
Record UploadedFile : Type := mkUploadedFile {
  originalname : string;
  file_path : string
}.

(** [req.body]: the form fields.  A missing [fromFormat] or [toFormat]
    behaves in every use below as the string ["undefined"]. *)
Record Body : Type := mkBody {
  body_fromFormat : string;
  body_toFormat : string;
  body_options : option string
}.

Record ConvertRequest : Type := mkConvertRequest {
  req_file : option UploadedFile;
  req_body : Body
}.

Record BatchRequest : Type := mkBatchRequest {
  req_files : option (list UploadedFile);
  batch_body : Body
}.

(** One entry handed to the archiver by [archive.file(source, { name })]. *)
Record ArchiveEntry : Type := mkArchiveEntry {
  entry_source : string;
  entry_name : string
}.

Inductive Response : Type :=
| RJson (status : nat) (error : string)
    (* res.status(status).json({ error }) *)
| RDownload (path filename : string)
    (* res.download(path, filename, ...) *)
| RArchive (path filename : string) (entries : list ArchiveEntry)
    (* res.download of the ZIP built from these entries *)
| RNoResponse.
    (* res.download could not read the file: the error goes to the
       callback, which only logs it, and nothing is sent *)

(** One element of [conversions] in the batch endpoint. *)
Record Conversion : Type := mkConversion {
  conv_original : string;
  conv_converted : option string;
  conv_path : option string;
  conv_error : option string;
  conv_success : bool
}.

(** [res.download(path, filename, callback)]: the file is sent when it is
    on disk; otherwise the error is handed to the callback and, the
    callbacks of this server only logging it, no response is sent.  The
    callback runs in both cases. *)
Definition res_download (path : string) (sent : Response) : M Response :=
  λ st, (Ok (if bool_decide (path ∈ os_files (st_os st)) then sent else RNoResponse), st).

(** What the archiver writes for the queued [archive.file] calls when it is
    finalized: a queued source that is not on disk is dropped (the archiver
    emits a warning, to which nothing listens). *)
Definition archive_finalize (queued : list ArchiveEntry) : M (list ArchiveEntry) :=
  λ st, (Ok (filter (λ entry, entry_source entry ∈ os_files (st_os st)) queued), st).

Section Server.
Context `{Runtime}.

(** [options ? JSON.parse(options) : {}] *)
Definition parse_options (options : option string) : M jsval :=
  match options with
  | None => mret (JObj [])
  | Some text =>
      if bool_decide (text = "") then mret (JObj [])
      else λ st, (JSON_parse text, st)
  end.

(** ** Convert a single file *)

(** An exception thrown while the command is built rejects the promise;
    otherwise the command is executed and the callback settles it. *)
Definition convertFile
    (inputPath outputPath fromFormat toFormat : string) (options : jsval) : M string :=
  λ st,
    match buildPandocCommand inputPath outputPath fromFormat toFormat options with
    | Throw e => (Throw e, st)
    | Ok cmd =>
        let '(out, os') := exec cmd (st_os st) in
        let st' := mkSt os' (st_executed st ++ [cmd]) in
        match exec_error out with
        | Some message =>
            (Throw ("Conversion failed: " +:+
                    (if bool_decide (exec_stderr out = "") then message
                     else exec_stderr out)), st')
        | None => (Ok outputPath, st')
        end
    end.

(** The output path of the single-file endpoint and of the batch loop:
    [path.join('downloads', `${outputFilename}-${stamp}${outputExt}`)]. *)
Definition derive_output_path (originalname : string) (stamp : N) (toFormat : string) : string :=
  let outputFilename := path_parse_name originalname in
  let outputExt := getOutputExtension toFormat in
  path_join "downloads" (outputFilename +:+ "-" +:+ pretty stamp +:+ toString outputExt).

(** ** Single file conversion endpoint *)

Definition apiConvert (req : ConvertRequest) : M Response :=
  try_catch
    (match req_file req with
     | None => mret (RJson 400 "No file uploaded")
     | Some file =>
         let fromFormat := body_fromFormat (req_body req) in
         let toFormat := body_toFormat (req_body req) in
         parsedOptions ← parse_options (body_options (req_body req)) ;
         let inputPath := file_path file in
         let outputFilename := path_parse_name (originalname file) in
         let outputExt := getOutputExtension toFormat in
         now ← Date_now ;
         let outputPath := derive_output_path (originalname file) now toFormat in
         convertFile inputPath outputPath fromFormat toFormat parsedOptions ;;
         (* Send the file, then clean up in the completion callback *)
         sent ← res_download outputPath
                  (RDownload outputPath (outputFilename +:+ toString outputExt)) ;
         try_catch (unlink inputPath ;; unlink outputPath) (λ _, mret tt) ;;
         mret sent
     end)
    (λ message, mret (RJson 500 message)).

(** ** Batch conversion endpoint *)

(** The loop over [req.files]; [conversions] is the array built so far. *)
Fixpoint convertAll (files : list UploadedFile) (fromFormat toFormat : string)
    (parsedOptions : jsval) (timestamp : N) (conversions : list Conversion)
    : M (list Conversion) :=
  match files with
  | [] => mret conversions
  | file :: rest =>
      let inputPath := file_path file in
      let outputPath := derive_output_path (originalname file) timestamp toFormat in
      conversions ←
        try_catch
          (convertFile inputPath outputPath fromFormat toFormat parsedOptions ;;
           mret (conversions ++
                [mkConversion (originalname file) (Some (path_basename outputPath))
                              (Some outputPath) None true]))
          (λ message,
           mret (conversions ++
                [mkConversion (originalname file) None None (Some message) false])) ;
      convertAll rest fromFormat toFormat parsedOptions timestamp conversions
  end.

(** [conv.success && conv.path] *)
Definition archivable (conv : Conversion) : bool :=
  conv_success conv &&
  match conv_path conv with
  | Some p => negb (bool_decide (p = ""))
  | None => false
  end.

(** Add successful conversions to ZIP: the calls
    [archive.file(conv.path, { name: conv.converted })], in order. *)
Fixpoint archive_entries (conversions : list Conversion) : list ArchiveEntry :=
  match conversions with
  | [] => []
  | conv :: rest =>
      if archivable conv
      then mkArchiveEntry (default "" (conv_path conv)) (default "undefined" (conv_converted conv))
           :: archive_entries rest
      else archive_entries rest
  end.

(** The cleanup callback of the batch download. *)
Definition cleanupBatch (files : list UploadedFile) (conversions : list Conversion)
    (zipPath : string) : M unit :=
  try_catch
    (for_each files (λ file, unlink (file_path file)) ;;
     for_each conversions
       (λ conv, if archivable conv then unlink (default "" (conv_path conv)) else mret tt) ;;
     unlink zipPath)
    (λ _, mret tt).

Definition apiConvertBatch (req : BatchRequest) : M Response :=
  try_catch
    (match req_files req with
     | None | Some [] => mret (RJson 400 "No files uploaded")
     | Some files =>
         let fromFormat := body_fromFormat (batch_body req) in
         let toFormat := body_toFormat (batch_body req) in
         parsedOptions ← parse_options (body_options (batch_body req)) ;
         timestamp ← Date_now ;
         (* Convert all files *)
         conversions ← convertAll files fromFormat toFormat parsedOptions timestamp [] ;
         (* Create ZIP file *)
         let zipPath := path_join "downloads" ("converted-" +:+ pretty timestamp +:+ ".zip") in
         createWriteStream zipPath ;;
         (* Add successful conversions to ZIP *)
         entries ← archive_finalize (archive_entries conversions) ;
         (* Send the ZIP file, then clean up *)
         sent ← res_download zipPath
                  (RArchive zipPath "converted-documents.zip" entries) ;
         cleanupBatch files conversions zipPath ;;
         mret sent
     end)
    (λ message, mret (RJson 500 message)).

(** What the loop records for one uploaded file: a success with the derived
    output path and its basename, or a failure with the error message. *)
Definition records (timestamp : N) (toFormat : string)
    (file : UploadedFile) (conv : Conversion) : Prop :=
  let outputPath := derive_output_path (originalname file) timestamp toFormat in
  conv = mkConversion (originalname file) (Some (path_basename outputPath))
                      (Some outputPath) None true
  ∨ ∃ message, conv = mkConversion (originalname file) None None (Some message) false.

(** The archive entry of a file converted in a batch stamped [timestamp]. *)
Definition entry_for (timestamp : N) (toFormat : string) (file : UploadedFile) : ArchiveEntry :=
  let outputPath := derive_output_path (originalname file) timestamp toFormat in
  mkArchiveEntry outputPath (path_basename outputPath).

(** The command the loop runs for one file of a batch stamped [timestamp]. *)
Definition command_for (timestamp : N) (fromFormat toFormat : string) (o : OptionFlags)
    (file : UploadedFile) : string :=
  buildPandocCommand_body (file_path file)
    (derive_output_path (originalname file) timestamp toFormat) fromFormat toFormat o.

(** A computation that runs no command. *)
Definition runs_nothing {A} (m : M A) : Prop :=
  ∀ st, st_executed (m st).2 = st_executed st.

(** What [convertFile] returns for each file of a batch when it is called
    on one file after the other, each call starting in the state the
    previous one left; the state after the last call comes with it. *)
Fixpoint run_conversions (files : list UploadedFile) (fromFormat toFormat : string)
    (parsedOptions : jsval) (timestamp : N) (st : St) : list (result string) * St :=
  match files with
  | [] => ([], st)
  | file :: rest =>
      let '(outcome, st') :=
        convertFile (file_path file)
          (derive_output_path (originalname file) timestamp toFormat)
          fromFormat toFormat parsedOptions st in
      let '(outcomes, st'') :=
        run_conversions rest fromFormat toFormat parsedOptions timestamp st' in
      (outcome :: outcomes, st'')
  end.

(** The record the loop is to keep for a file, given what [convertFile]
    returned for it. *)
Definition record_of (timestamp : N) (toFormat : string)
    (file : UploadedFile) (outcome : result string) : Conversion :=
  let outputPath := derive_output_path (originalname file) timestamp toFormat in
  match outcome with
  | Ok _ => mkConversion (originalname file) (Some (path_basename outputPath))
                         (Some outputPath) None true
  | Throw message => mkConversion (originalname file) None None (Some message) false
  end.

(** Whether a conversion resolved. *)
Definition resolved (outcome : result string) : bool :=
  match outcome with Ok _ => true | Throw _ => false end.

(** The archive entries of the files whose conversion resolved and whose
    output file is in [disk], in upload order. *)
Definition entries_on_disk (timestamp : N) (toFormat : string) (disk : gset string)
    (files : list UploadedFile) (outcomes : list (result string)) : list ArchiveEntry :=
  omap (λ fo : UploadedFile * result string,
          if resolved fo.2 &&
             bool_decide (derive_output_path (originalname fo.1) timestamp toFormat ∈ disk)
          then Some (entry_for timestamp toFormat fo.1) else None)
       (zip files outcomes).

End Server.

(** Number of successful conversions in a batch (the K of the
    specification). *)
Definition successes (conversions : list Conversion) : nat :=
  length (filter (λ conv, conv_success conv = true) conversions).

(** ** A small runtime for concrete runs *)

Module Demo.

(** Text of [s] before its first dot; stands for [path.parse(s).name] on
    plain file names with one extension. *)
Fixpoint before_dot (s : string) : string :=
  match s with
  | EmptyString => EmptyString
  | String c s' => if bool_decide (c = "."%char) then EmptyString else String c (before_dot s')
  end.

(** Text of [s] after its last slash. *)
Fixpoint after_slash (s : string) : string :=
  match s with
  | EmptyString => EmptyString
  | String c s' =>
      if includes s' "/" then after_slash s'
      else if bool_decide (c = "/"%char) then s' else s
  end.

(** Text of [s] after the first occurrence of [marker]. *)
Fixpoint after_marker (marker s : string) : string :=
  if String.prefix marker s
  then String.substring (String.length marker) (String.length s) s
  else match s with
       | EmptyString => EmptyString
       | String _ s' => after_marker marker s'
       end.

(** Text of [s] before its first double quote. *)
Fixpoint before_dq (s : string) : string :=
  match s with
  | EmptyString => EmptyString
  | String c s' => if bool_decide (c = "034"%char) then EmptyString else String c (before_dq s')
  end.

(** An engine that fails on inputs named "corrupt" (with a diagnostic),
    fails silently on inputs named "silent", exits 0 without writing
    anything on inputs named "ghost", and otherwise writes the file named
    after [-o]. *)
Definition engine (cmd : string) (os : OS) : ExecOutcome * OS :=
  if includes cmd "corrupt"
  then (mkExecOutcome (Some ("Command failed: " +:+ cmd)) "" "pandoc: parse error", os)
  else if includes cmd "silent"
  then (mkExecOutcome (Some ("Command failed: " +:+ cmd)) "" "", os)
  else if includes cmd "ghost"
  then (mkExecOutcome None "" "", os)
  else (mkExecOutcome None "" "",
        mkOS ({[before_dq (after_marker (" -o " +:+ dq) cmd)]} ∪ os_files os) (os_clock os)).

Definition parse (text : string) : result jsval :=
  if bool_decide (text = "null") then Ok JNull
  else if bool_decide (text = "{}") then Ok (JObj [])
  else Throw "Unexpected token in JSON".

Definition runtime : Runtime :=
  {| JSON_parse := parse;
     path_parse_name := before_dot;
     path_join := λ a b, a +:+ "/" +:+ b;
     path_basename := after_slash;
     exec := engine |}.

(** Three uploads, the second one unreadable. *)
Definition three_files : list UploadedFile :=
  [ mkUploadedFile "one.md" "uploads/5-one.md";
    mkUploadedFile "corrupt.md" "uploads/5-corrupt.md";
    mkUploadedFile "three.md" "uploads/5-three.md" ].

Definition start : St :=
  mkSt (mkOS {[ "uploads/5-one.md"; "uploads/5-corrupt.md"; "uploads/5-three.md" ]} 7) [].

Definition body : Body := mkBody "markdown" "html" (Some "{}").

End Demo.

(** * The rest of the server *)

(** ** Names for parts of the command line *)

(** The flags that close every command. *)
Definition closing_flags : string := " --smart --highlight-style=pygments --wrap=preserve".

(** ** Upload storage *)

(** The [filename] callback of the disk storage:
    [Date.now() + '-' + file.originalname]. *)
Definition storage_filename (now : N) (originalname : string) : string :=
  pretty now +:+ "-" +:+ originalname.

(** The [destination] callback of the disk storage. *)
Definition storage_destination : string := "uploads/".

(** A string of decimal digits only. *)
Fixpoint digits_only (s : string) : bool :=
  match s with
  | EmptyString => true
  | String c s' => bool_decide (is_Some (Ascii.is_nat c)) && digits_only s'
  end.

(** ** The format catalog served by [/api/formats] *)

Record InputFormat : Type := mkInputFormat {
  in_value : string;
  in_label : string;
  in_extensions : list string
}.

Record OutputFormat : Type := mkOutputFormat {
  out_value : string;
  out_label : string;
  out_extension : string
}.

Definition formats_input : list InputFormat :=
  [ mkInputFormat "markdown" "Markdown" [".md"; ".markdown"];
    mkInputFormat "html" "HTML" [".html"; ".htm"];
    mkInputFormat "docx" "Word (DOCX)" [".docx"];
    mkInputFormat "odt" "OpenDocument" [".odt"];
    mkInputFormat "epub" "EPUB" [".epub"];
    mkInputFormat "latex" "LaTeX" [".tex"];
    mkInputFormat "rst" "reStructuredText" [".rst"];
    mkInputFormat "textile" "Textile" [".textile"];
    mkInputFormat "org" "Org Mode" [".org"];
    mkInputFormat "mediawiki" "MediaWiki" [".wiki"];
    mkInputFormat "rtf" "Rich Text Format" [".rtf"];
    mkInputFormat "json" "Pandoc JSON" [".json"] ].

Definition formats_output : list OutputFormat :=
  [ mkOutputFormat "markdown" "Markdown" ".md";
    mkOutputFormat "html" "HTML" ".html";
    mkOutputFormat "docx" "Word (DOCX)" ".docx";
    mkOutputFormat "odt" "OpenDocument" ".odt";
    mkOutputFormat "epub" "EPUB" ".epub";
    mkOutputFormat "pdf" "PDF" ".pdf";
    mkOutputFormat "latex" "LaTeX" ".tex";
    mkOutputFormat "rst" "reStructuredText" ".rst";
    mkOutputFormat "textile" "Textile" ".textile";
    mkOutputFormat "org" "Org Mode" ".org";
    mkOutputFormat "mediawiki" "MediaWiki" ".wiki";
    mkOutputFormat "rtf" "Rich Text Format" ".rtf";
    mkOutputFormat "plain" "Plain Text" ".txt";
    mkOutputFormat "json" "Pandoc JSON" ".json" ].

(** ** The engine probe *)

(** [s.split(c)] for a one-character separator: never empty. *)
Fixpoint split_on (c : ascii) (s : string) : list string :=
  match s with
  | EmptyString => [EmptyString]
  | String x s' =>
      if bool_decide (x = c) then EmptyString :: split_on c s'
      else match split_on c s' with
           | [] => [String x EmptyString]
           | w :: ws => String x w :: ws
           end
  end.

(** The line feed, ['\n']. *)
Definition newline : ascii := "010"%char.

(** [version.split('\n')[0]] *)
Definition first_line (version : string) : string :=
  hd "undefined" (split_on newline version).

(** The body of [/api/check-pandoc]'s answer. *)
Inductive ProbeResponse : Type :=
| PAvailable (version : string)
    (* res.json({ available: true, version }) *)
| PUnavailable (error : string).
    (* res.json({ available: false, error }) *)

Section Probe.
Context `{Runtime}.

(** Check if Pandoc is installed: the promise resolves with the standard
    output of [pandoc --version] or rejects with a fixed message. *)
Definition checkPandoc : M string :=
  λ st,
    let cmd := "pandoc --version" in
    let '(out, os') := exec cmd (st_os st) in
    let st' := mkSt os' (st_executed st ++ [cmd]) in
    match exec_error out with
    | Some _ => (Throw "Pandoc is not installed or not in PATH", st')
    | None => (Ok (exec_stdout out), st')
    end.

(** API endpoint to check Pandoc availability. *)
Definition apiCheckPandoc : M ProbeResponse :=
  try_catch
    (version ← checkPandoc ;
     mret (PAvailable (first_line version)))
    (λ message, mret (PUnavailable message)).

End Probe.

(** The paths the batch cleanup unlinks before the archive itself, in
    order: every upload, then the output of every archived conversion. *)
Definition cleanup_paths (files : list UploadedFile) (conversions : list Conversion)
    : list string :=
  (file_path <$> files) ++ (entry_source <$> archive_entries conversions).

(** * The browser client *)

Module Client.

(** A [File] picked in the browser. *)
Record File : Type := mkFile {
  file_name : string;
  file_size : N
}.

(** The [state] object, together with the [disabled] attribute of the
    convert button. *)
Record State : Type := mkState {
  mode : string;
  files : list File;
  inputFormat : string;
  outputFormat : string;
  options : jsval;
  convertDisabled : bool
}.

(** Update convert button state:
    [disabled = !(state.files.length > 0 && state.outputFormat)]. *)
Definition updateConvertButton (st : State) : State :=
  let canConvert :=
    bool_decide (0 < length (files st)) && negb (bool_decide (outputFormat st = "")) in
  mkState (mode st) (files st) (inputFormat st) (outputFormat st) (options st)
          (negb canConvert).

(** Handle file selection: single mode keeps [files.slice(0, 1)], any
    other mode appends. *)
Definition handleFiles (selected : list File) (st : State) : State :=
  let files' :=
    if bool_decide (mode st = "single") then take 1 selected
    else files st ++ selected in
  updateConvertButton
    (mkState (mode st) files' (inputFormat st) (outputFormat st) (options st)
             (convertDisabled st)).

(** [array.splice(index, 1)] for an integer [index]: a negative index
    counts from the end, a start beyond either end is clamped. *)
Definition splice1 {A} (index : Z) (l : list A) : list A :=
  let len := Z.of_nat (length l) in
  let start := if (index <? 0)%Z then Z.max (len + index) 0 else Z.min index len in
  delete (Z.to_nat start) l.

(** Remove file *)
Definition removeFile (index : Z) (st : State) : State :=
  updateConvertButton
    (mkState (mode st) (splice1 index (files st)) (inputFormat st) (outputFormat st)
             (options st) (convertDisabled st)).

(** Clear all files *)
Definition clearFiles (st : State) : State :=
  updateConvertButton
    (mkState (mode st) [] (inputFormat st) (outputFormat st) (options st)
             (convertDisabled st)).

(** Click on a mode button. *)
Definition selectMode (m : string) (st : State) : State :=
  clearFiles (mkState m (files st) (inputFormat st) (outputFormat st) (options st)
                      (convertDisabled st)).

(** Change of the input format selector. *)
Definition selectInputFormat (value : string) (st : State) : State :=
  updateConvertButton
    (mkState (mode st) (files st) value (outputFormat st) (options st)
             (convertDisabled st)).

(** Change of the output format selector. *)
Definition selectOutputFormat (value : string) (st : State) : State :=
  updateConvertButton
    (mkState (mode st) (files st) (inputFormat st) value (options st)
             (convertDisabled st)).

(** Update options state, from the four checkboxes. *)
Definition updateOptions (optToc optNumberSections optBibliography optCss : bool)
    (st : State) : State :=
  mkState (mode st) (files st) (inputFormat st) (outputFormat st)
    (JObj [ ("toc", JBool optToc);
            ("numberSections", JBool optNumberSections);
            ("bibliography", JBool optBibliography);
            ("css", JBool optCss) ])
    (convertDisabled st).

(** The user actions that change [state]. *)
Inductive Action : Type :=
| HandleFiles (selected : list File)
| RemoveFile (index : Z)
| ClearFiles
| SelectMode (m : string)
| SelectInputFormat (value : string)
| SelectOutputFormat (value : string).

Definition step (a : Action) (st : State) : State :=
  match a with
  | HandleFiles selected => handleFiles selected st
  | RemoveFile index => removeFile index st
  | ClearFiles => clearFiles st
  | SelectMode m => selectMode m st
  | SelectInputFormat value => selectInputFormat value st
  | SelectOutputFormat value => selectOutputFormat value st
  end.

(** The state after a sequence of actions, first action first. *)
Definition run (actions : list Action) (st : State) : State :=
  foldl (λ st a, step a st) st actions.

(** The button is enabled exactly when a file is selected and an output
    format is chosen. *)
Definition button_consistent (st : State) : Prop :=
  convertDisabled st = false ↔ files st ≠ [] ∧ outputFormat st ≠ "".

(** [s.lastIndexOf(c)], or [-1]. *)
Fixpoint lastIndexOf (s : string) (c : ascii) : Z :=
  match s with
  | EmptyString => (-1)%Z
  | String x s' =>
      let later := lastIndexOf s' c in
      if (0 <=? later)%Z then (later + 1)%Z
      else if bool_decide (x = c) then 0%Z else (-1)%Z
  end.

(** [s.substring(0, end)]: a negative end counts as 0, an end past the
    string as its length. *)
Definition substring0 (s : string) (finish : Z) : string :=
  String.substring 0 (Z.to_nat finish) s.

(** The extension table of [getOutputFilename]. *)
Definition extensions : list (string * jsval) :=
  [ ("markdown", JStr ".md");
    ("html", JStr ".html");
    ("docx", JStr ".docx");
    ("odt", JStr ".odt");
    ("epub", JStr ".epub");
    ("pdf", JStr ".pdf");
    ("latex", JStr ".tex");
    ("rst", JStr ".rst");
    ("textile", JStr ".textile");
    ("org", JStr ".org");
    ("mediawiki", JStr ".wiki");
    ("rtf", JStr ".rtf");
    ("plain", JStr ".txt");
    ("json", JStr ".json") ].

(** Get output filename: the name up to its last dot (the whole name when
    that is empty), followed by the extension of [state.outputFormat]. *)
Definition getOutputFilename (st : State) (inputFilename : string) : string :=
  let stem := substring0 inputFilename (lastIndexOf inputFilename "."%char) in
  let basename := if bool_decide (stem = "") then inputFilename else stem in
  basename +:+ toString (js_or (get_property extensions (outputFormat st)) (JStr ".txt")).

(** The text fields both conversion requests append to the form;
    [stringify] is [JSON.stringify]. *)
Definition formFields (stringify : jsval → string) (st : State) : Body :=
  mkBody (if bool_decide (inputFormat st = "") then "markdown" else inputFormat st)
         (outputFormat st)
         (Some (stringify (options st))).

(** The files the request carries: [state.files[0]] in single mode, every
    file otherwise. *)
Definition formFiles (st : State) : list File :=
  if bool_decide (mode st = "single") then take 1 (files st) else files st.

End Client.

(** ** More concrete values *)

Module Scenario.

(** An engine that is not installed. *)
Definition missing_engine (cmd : string) (os : OS) : ExecOutcome * OS :=
  (mkExecOutcome (Some ("Command failed: " +:+ cmd)) "" "sh: pandoc: not found", os).

Definition no_pandoc : Runtime :=
  {| JSON_parse := Demo.parse;
     path_parse_name := Demo.before_dot;
     path_join := λ a b, a +:+ "/" +:+ b;
     path_basename := Demo.after_slash;
     exec := missing_engine |}.

(** An installed engine: two lines of version text. *)
Definition version_text : string :=
  "pandoc 3.1.9" +:+ String newline "Features: +server +lua".

Definition installed_engine (cmd : string) (os : OS) : ExecOutcome * OS :=
  (mkExecOutcome None version_text "", os).

Definition with_pandoc : Runtime :=
  {| JSON_parse := Demo.parse;
     path_parse_name := Demo.before_dot;
     path_join := λ a b, a +:+ "/" +:+ b;
     path_basename := Demo.after_slash;
     exec := installed_engine |}.

(** A form whose options field is not JSON. *)
Definition bad_options : Body := mkBody "markdown" "html" (Some "{toc").

(** A form whose options field is the JSON text [null]. *)
Definition null_options : Body := mkBody "markdown" "html" (Some "null").

(** The records of a batch over [Demo.three_files] stamped 7, and the disk
    when its cleanup starts. *)
Definition conversions : list Conversion :=
  [ mkConversion "one.md" (Some "one-7.html") (Some "downloads/one-7.html") None true;
    mkConversion "corrupt.md" None None (Some "Conversion failed: pandoc: parse error") false;
    mkConversion "three.md" (Some "three-7.html") (Some "downloads/three-7.html") None true ].

Definition zip : string := "downloads/converted-7.zip".

Definition before_cleanup : St :=
  mkSt (mkOS {[ "uploads/5-one.md"; "uploads/5-corrupt.md"; "uploads/5-three.md";
                "downloads/one-7.html"; "downloads/three-7.html";
                "downloads/converted-7.zip" ]} 9) [].

(** Two uploads with the same base name, both converted: one output path. *)
Definition same_name_files : list UploadedFile :=
  [ mkUploadedFile "a.md" "uploads/5-a.md";
    mkUploadedFile "a.txt" "uploads/6-a.txt" ].

Definition same_name_conversions : list Conversion :=
  [ mkConversion "a.md" (Some "a-7.html") (Some "downloads/a-7.html") None true;
    mkConversion "a.txt" (Some "a-7.html") (Some "downloads/a-7.html") None true ].

Definition before_same_name_cleanup : St :=
  mkSt (mkOS {[ "uploads/5-a.md"; "uploads/6-a.txt"; "downloads/a-7.html";
                "downloads/converted-7.zip" ]} 9) [].

End Scenario.

(** * Properties *)

(** ** Strings: concatenation and substrings *)

Lemma str_app_cons (c : ascii) (a b : string) : String c a +:+ b = String c (a +:+ b).
Proof. reflexivity. Qed.

Lemma str_app_nil_l (a : string) : "" +:+ a = a.
Proof. reflexivity. Qed.

Lemma str_app_nil_r (a : string) : a +:+ "" = a.
Proof. induction a as [|c a IH]; [done|]. by rewrite str_app_cons, IH. Qed.

Lemma str_app_assoc (a b c : string) : (a +:+ b) +:+ c = a +:+ (b +:+ c).
Proof. induction a as [|x a IH]; [done|]. by rewrite !str_app_cons, IH. Qed.

Lemma prefix_nil (s : string) : String.prefix "" s = true.
Proof. by destruct s. Qed.

Lemma prefix_cons (c d : ascii) (p s : string) :
  String.prefix (String c p) (String d s) = bool_decide (c = d) && String.prefix p s.
Proof. simpl. destruct (ascii_dec c d); by case_bool_decide. Qed.

Lemma prefix_refl (p : string) : String.prefix p p = true.
Proof.
  induction p as [|c p IH]; [done|].
  rewrite prefix_cons, IH. by rewrite bool_decide_eq_true_2.
Qed.

Lemma prefix_app (p a b : string) :
  String.prefix p a = true → String.prefix p (a +:+ b) = true.
Proof.
  revert a. induction p as [|c p IH]; intros a Hp; [apply prefix_nil|].
  destruct a as [|d a]; [done|].
  rewrite str_app_cons, prefix_cons. rewrite prefix_cons in Hp.
  apply andb_true_iff in Hp as [-> Hp]. by rewrite (IH _ Hp).
Qed.

Lemma includes_cons (c : ascii) (s p : string) :
  includes (String c s) p = String.prefix p (String c s) || includes s p.
Proof. reflexivity. Qed.

Lemma includes_refl (p : string) : includes p p = true.
Proof. destruct p as [|c p]; [done|]. by rewrite includes_cons, prefix_refl. Qed.

Lemma includes_app_l (a b p : string) :
  includes a p = true → includes (a +:+ b) p = true.
Proof.
  induction a as [|c a IH]; intros Hp.
  - simpl in Hp. rewrite orb_false_r in Hp.
    destruct p; [|done]. destruct b; simpl includes; by rewrite ?prefix_nil.
  - rewrite str_app_cons, includes_cons. rewrite includes_cons in Hp.
    apply orb_true_iff in Hp as [Hp|Hp]; apply orb_true_iff.
    + left. by apply (prefix_app _ (String c a)).
    + right. by apply IH.
Qed.

Lemma includes_app_r (a b p : string) :
  includes b p = true → includes (a +:+ b) p = true.
Proof.
  intros Hp. induction a as [|c a IH]; [done|].
  rewrite str_app_cons, includes_cons, IH. apply orb_true_r.
Qed.

(** A string that contains [c p] contains [p]. *)
Lemma includes_tail (s : string) (c : ascii) (p : string) :
  includes s (String c p) = true → includes s p = true.
Proof.
  induction s as [|d s IH]; [done|].
  rewrite !includes_cons, prefix_cons. intros Hp.
  apply orb_true_iff in Hp as [Hp|Hp]; apply orb_true_iff; right.
  - apply andb_true_iff in Hp as [_ Hp].
    destruct s as [|e s]; [|by rewrite includes_cons, Hp].
    change (includes "" p) with (String.prefix p "" || false). by rewrite Hp.
  - by apply IH.
Qed.

(** A delimiter-free pattern that starts inside [a] cannot run across a
    delimiter that follows [a]. *)
Lemma prefix_app_delim (p a : string) (c : ascii) (b : string) :
  is_delim c = true → delim_free p = true →
  String.prefix p (a +:+ String c b) = true → String.prefix p a = true.
Proof.
  intros Hc. revert a. induction p as [|x p IH]; intros a Hfree Hp; [apply prefix_nil|].
  simpl in Hfree. apply andb_true_iff in Hfree as [Hx Hfree].
  destruct a as [|d a].
  - rewrite str_app_nil_l, prefix_cons in Hp.
    apply andb_true_iff in Hp as [Hxc _]. apply bool_decide_eq_true in Hxc as ->.
    by rewrite Hc in Hx.
  - rewrite str_app_cons, prefix_cons in Hp. rewrite prefix_cons.
    apply andb_true_iff in Hp as [-> Hp]. by rewrite (IH _ Hfree Hp).
Qed.

(** An occurrence of a delimiter-free pattern in [a c b], with [c] a
    delimiter, lies inside [a] or inside [b]. *)
Lemma includes_app_delim (p a : string) (c : ascii) (b : string) :
  is_delim c = true → delim_free p = true →
  includes (a +:+ String c b) p = true →
  includes a p = true ∨ includes b p = true.
Proof.
  intros Hc Hfree. induction a as [|d a IH]; intros Hp.
  - rewrite str_app_nil_l, includes_cons in Hp.
    apply orb_true_iff in Hp as [Hp|Hp]; [|by right].
    left. apply (prefix_app_delim p "" c b Hc Hfree) in Hp.
    change (includes "" p) with (String.prefix p "" || false). by rewrite Hp.
  - rewrite str_app_cons, includes_cons in Hp. rewrite includes_cons.
    apply orb_true_iff in Hp as [Hp|Hp].
    + left. apply (prefix_app_delim p (String d a) c b Hc Hfree) in Hp.
      by rewrite Hp.
    + destruct (IH Hp) as [Ha|Hb]; [left|by right].
      rewrite Ha. apply orb_true_r.
Qed.

(** ** The command line as template followed by flags *)

Lemma add_if_app (cond : bool) (flag a b : string) :
  add_if cond flag (a +:+ b) = a +:+ add_if cond flag b.
Proof. destruct cond; simpl; [apply str_app_assoc|done]. Qed.

Lemma append_flags_app (fromFormat toFormat : string) (o : OptionFlags) (a b : string) :
  append_flags fromFormat toFormat o (a +:+ b) = a +:+ append_flags fromFormat toFormat o b.
Proof.
  unfold append_flags.
  repeat (rewrite ?add_if_app, ?str_app_assoc; try case_bool_decide); done.
Qed.

Lemma buildPandocCommand_body_split (inputPath outputPath fromFormat toFormat : string)
    (o : OptionFlags) :
  buildPandocCommand_body inputPath outputPath fromFormat toFormat o =
  command_template inputPath outputPath fromFormat toFormat +:+
  append_flags fromFormat toFormat o "".
Proof.
  unfold buildPandocCommand_body.
  by rewrite <- append_flags_app, str_app_nil_r.
Qed.

(** The template with its delimiters made explicit. *)
Lemma command_template_delims (inputPath outputPath fromFormat toFormat tail : string) :
  command_template inputPath outputPath fromFormat toFormat +:+ tail =
  "pandoc" +:+ String " "%char ("" +:+ String "034"%char (inputPath +:+ String "034"%char ("" +:+
  String " "%char ("-f" +:+ String " "%char (fromFormat +:+ String " "%char ("-t" +:+
  String " "%char (toFormat +:+ String " "%char ("-o" +:+ String " "%char ("" +:+
  String "034"%char (outputPath +:+ String "034"%char tail)))))))))).
Proof. unfold command_template, dq. by rewrite !str_app_assoc. Qed.

Ltac split_at_delim H :=
  apply includes_app_delim in H; [destruct H as [H|H] | reflexivity | assumption].

(** Where a delimiter-free text can occur in a command line: inside one of
    the interpolated strings or among the flags, provided it is not part of
    the fixed words of the template. *)
Lemma command_occurrence (p inputPath outputPath fromFormat toFormat tail : string) :
  delim_free p = true →
  forallb (λ w, negb (includes w p)) ["pandoc"; ""; "-f"; "-t"; "-o"] = true →
  includes (command_template inputPath outputPath fromFormat toFormat +:+ tail) p = true →
  includes inputPath p = true ∨ includes outputPath p = true ∨
  includes fromFormat p = true ∨ includes toFormat p = true ∨
  includes tail p = true.
Proof.
  intros Hfree Hwords H. rewrite command_template_delims in H.
  cbn [forallb] in Hwords. rewrite !andb_true_iff, !negb_true_iff in Hwords.
  destruct Hwords as (Hpandoc & Hnil & Hf & Ht & Ho & _).
  split_at_delim H; [congruence|].
  split_at_delim H; [congruence|].
  split_at_delim H; [by left|].
  split_at_delim H; [congruence|].
  split_at_delim H; [congruence|].
  split_at_delim H; [by right; right; left|].
  split_at_delim H; [congruence|].
  split_at_delim H; [by right; right; right; left|].
  split_at_delim H; [congruence|].
  split_at_delim H; [congruence|].
  split_at_delim H; [by right; left|].
  by right; right; right; right.
Qed.

Lemma free_of_occurrence (p inputPath outputPath fromFormat toFormat tail : string) :
  delim_free p = true →
  forallb (λ w, negb (includes w p)) ["pandoc"; ""; "-f"; "-t"; "-o"] = true →
  free_of p inputPath outputPath fromFormat toFormat →
  includes (command_template inputPath outputPath fromFormat toFormat +:+ tail) p = true →
  includes tail p = true.
Proof.
  intros Hfree Hwords (Hi & Ho & Hf & Ht) H.
  destruct (command_occurrence _ _ _ _ _ _ Hfree Hwords H)
    as [?|[?|[?|[?|?]]]]; congruence.
Qed.

(** Appending flags keeps what the command already contains. *)
Lemma add_if_includes (cond : bool) (flag cmd p : string) :
  includes cmd p = true → includes (add_if cond flag cmd) p = true.
Proof. destruct cond; simpl; [apply includes_app_l|done]. Qed.

Lemma add_if_includes_flag (flag cmd : string) :
  includes (add_if true flag cmd) flag = true.
Proof. apply includes_app_r, includes_refl. Qed.

(** ** Reading the options *)

Lemma Ok_inj {A} (a b : A) : Ok a = Ok b → a = b.
Proof. by intros [= ->]. Qed.

Lemma read_options_Ok (options : jsval) :
  options ≠ JNull → ∃ o, read_options options = Ok o.
Proof. destruct options; intros ?; try done; eexists; reflexivity. Qed.

Lemma read_options_set (options : jsval) (o : OptionFlags) :
  read_options options = Ok o →
  opt_toc o = option_set options "toc" ∧
  opt_numberSections o = option_set options "numberSections" ∧
  opt_css o = option_set options "css" ∧
  opt_bibliography o = option_set options "bibliography".
Proof.
  destruct options; cbv [read_options option_set option_member];
    intros Heq; try discriminate Heq; apply Ok_inj in Heq as <-;
    repeat split; reflexivity.
Qed.

Lemma buildPandocCommand_Ok (inputPath outputPath fromFormat toFormat : string)
    (options : jsval) (cmd : string) :
  buildPandocCommand inputPath outputPath fromFormat toFormat options = Ok cmd →
  ∃ o, read_options options = Ok o ∧
       cmd = buildPandocCommand_body inputPath outputPath fromFormat toFormat o.
Proof.
  unfold buildPandocCommand. destruct (read_options options) as [o|e]; [|done].
  intros [= <-]. eauto.
Qed.

(** ** Which flags follow the template *)

Lemma includes_delim_eq (p a : string) (c : ascii) (b : string) :
  is_delim c = true → delim_free p = true →
  includes (a +:+ String c b) p = includes a p || includes b p.
Proof.
  intros Hc Hfree. apply Bool.eq_iff_eq_true. rewrite orb_true_iff. split.
  - by apply includes_app_delim.
  - intros [Ha|Hb]; [by apply includes_app_l|].
    apply includes_app_r. rewrite includes_cons, Hb. apply orb_true_r.
Qed.

Lemma add_if_delim_eq (p : string) (cond : bool) (c : ascii) (flag cmd : string) :
  is_delim c = true → delim_free p = true →
  includes (add_if cond (String c flag) cmd) p =
  includes cmd p || (cond && includes flag p).
Proof.
  intros Hc Hfree. destruct cond; simpl.
  - by apply includes_delim_eq.
  - by rewrite orb_false_r.
Qed.

(** Evaluate every occurrence test between two literal strings. *)
Ltac eval_includes :=
  repeat match goal with
         | |- context [includes ?s ?p] =>
             let b := eval vm_compute in (includes s p) in
             change (includes s p) with b
         end.

(** For a delimiter-free text [p], an occurrence among the flags lies
    inside one flag; the tests on the literal flags are then evaluated. *)
Ltac flags_by_delims :=
  unfold append_flags, standalone_flag, toc_flag, extract_media_flag;
  repeat case_bool_decide;
  repeat first [ rewrite add_if_delim_eq by reflexivity
               | rewrite includes_delim_eq by reflexivity ];
  eval_includes;
  rewrite ?andb_false_r, ?andb_true_r, ?orb_false_r, ?orb_false_l;
  reflexivity.

Lemma flags_standalone_token (fromFormat toFormat : string) (o : OptionFlags) :
  includes (append_flags fromFormat toFormat o "") standalone_token =
  array_includes standalone_targets toFormat.
Proof. unfold standalone_token. flags_by_delims. Qed.

Lemma flags_toc_depth_token (fromFormat toFormat : string) (o : OptionFlags) :
  includes (append_flags fromFormat toFormat o "") toc_depth_token =
  opt_toc o && array_includes toc_targets toFormat.
Proof. unfold toc_depth_token. flags_by_delims. Qed.

Lemma flags_extract_media_token (fromFormat toFormat : string) (o : OptionFlags) :
  includes (append_flags fromFormat toFormat o "") extract_media_token =
  array_includes media_sources fromFormat.
Proof. unfold extract_media_token. flags_by_delims. Qed.

(** A flag added by one statement is still there after the statements
    that follow it, which only append. *)
Ltac later_statements :=
  repeat first
    [ assumption
    | apply add_if_includes_flag
    | apply add_if_includes
    | apply includes_app_l
    | case_bool_decide ].

Lemma flags_standalone_flag (fromFormat toFormat : string) (o : OptionFlags) (cmd : string) :
  array_includes standalone_targets toFormat = true →
  includes (append_flags fromFormat toFormat o cmd) standalone_flag = true.
Proof. intros Hc. unfold append_flags. rewrite Hc. later_statements. Qed.

Lemma flags_toc_flag (fromFormat toFormat : string) (o : OptionFlags) (cmd : string) :
  opt_toc o && array_includes toc_targets toFormat = true →
  includes (append_flags fromFormat toFormat o cmd) toc_flag = true.
Proof. intros Hc. unfold append_flags. rewrite Hc. later_statements. Qed.

Lemma flags_extract_media_flag (fromFormat toFormat : string) (o : OptionFlags) (cmd : string) :
  array_includes media_sources fromFormat = true →
  includes (append_flags fromFormat toFormat o cmd) extract_media_flag = true.
Proof. intros Hc. unfold append_flags. rewrite Hc. later_statements. Qed.

Lemma includes_drop (s x p : string) :
  includes s (x +:+ p) = true → includes s p = true.
Proof.
  induction x as [|c x IH]; [done|].
  rewrite str_app_cons. intros Hp. by apply IH, (includes_tail s c).
Qed.

Lemma includes_mid (a p b : string) : includes (a +:+ p +:+ b) p = true.
Proof. apply includes_app_r, includes_app_l, includes_refl. Qed.

Lemma array_includes_true (l : list string) (x : string) :
  array_includes l x = true ↔ x ∈ l.
Proof. apply bool_decide_eq_true. Qed.

(** ** The command builder *)

(** C3, as stated for every tuple, fails: a target format that carries the
    flag text puts the flag on the command line although the target is not
    one of html, docx, odt, epub, pdf. *)
Lemma standalone_flag_injected :
  ∃ cmd,
    buildPandocCommand "uploads/1-a.md" "downloads/a-1.txt" "markdown"
      "markdown --standalone" (JObj []) = Ok cmd ∧
    includes cmd standalone_flag = true ∧
    "markdown --standalone" ∉ standalone_targets.
Proof.
  eexists. split; [reflexivity|]. split; [by vm_compute|].
  intros Hin%array_includes_true. by vm_compute in Hin.
Qed.

(** C3 (amended): the built command contains the standalone flag whenever
    the target format is one of html, docx, odt, epub, pdf; and when none
    of the input path, output path, source format and target format
    contains the text [--standalone], it contains the flag only then. *)
Theorem standalone_flag_iff_target
    (inputPath outputPath fromFormat toFormat : string) (options : jsval) (cmd : string) :
  buildPandocCommand inputPath outputPath fromFormat toFormat options = Ok cmd →
  (toFormat ∈ standalone_targets → includes cmd standalone_flag = true) ∧
  (free_of standalone_token inputPath outputPath fromFormat toFormat →
   includes cmd standalone_flag = true → toFormat ∈ standalone_targets).
Proof.
  intros (o & _ & ->)%buildPandocCommand_Ok. split.
  - intros Hin%array_includes_true. by apply flags_standalone_flag.
  - intros Hfree Hcmd. apply array_includes_true.
    rewrite <- (flags_standalone_token fromFormat toFormat o).
    apply (includes_drop _ " ") in Hcmd.
    rewrite buildPandocCommand_body_split in Hcmd.
    by eapply free_of_occurrence.
Qed.

Lemma standalone_flag_iff_target_witness :
  let cmd := buildPandocCommand_body "uploads/1-a.md" "downloads/a-1.html"
               "markdown" "html" (mkOptionFlags false false false false) in
  buildPandocCommand "uploads/1-a.md" "downloads/a-1.html" "markdown" "html" (JObj [])
    = Ok cmd ∧
  free_of standalone_token "uploads/1-a.md" "downloads/a-1.html" "markdown" "html" ∧
  includes cmd standalone_flag = true ∧
  "html" ∈ standalone_targets.
Proof.
  intros cmd.
  assert (Hbuild : buildPandocCommand "uploads/1-a.md" "downloads/a-1.html"
                     "markdown" "html" (JObj []) = Ok cmd) by reflexivity.
  assert (Hfree : free_of standalone_token "uploads/1-a.md" "downloads/a-1.html"
                    "markdown" "html") by (repeat split; reflexivity).
  assert (Hcmd : includes cmd standalone_flag = true) by (vm_compute; reflexivity).
  destruct (standalone_flag_iff_target _ _ _ _ _ _ Hbuild) as [_ Honly].
  exact (conj Hbuild (conj Hfree (conj Hcmd (Honly Hfree Hcmd)))).
Defined.

(** C4, as stated for every request, fails: with the toc option set and
    target markdown, a source format that carries the flag text puts the
    table-of-contents flag on the command line. *)
Lemma toc_flag_injected :
  ∃ cmd,
    buildPandocCommand "uploads/1-a.md" "downloads/a-1.md"
      "markdown --toc --toc-depth=6" "markdown" (JObj [("toc", JBool true)]) = Ok cmd ∧
    includes cmd toc_flag = true ∧
    "markdown" ∉ toc_targets.
Proof.
  eexists. split; [reflexivity|]. split; [by vm_compute|].
  intros Hin%array_includes_true. by vm_compute in Hin.
Qed.

(** C4 (amended): the built command contains the table-of-contents flag,
    with depth 6, whenever the toc option is set and the target format is
    one of html, pdf, docx, epub; and when none of the input path, output
    path, source format and target format contains the text
    [--toc-depth=6], it contains the flag only then, so in particular not
    for target markdown. *)
Theorem toc_flag_iff_option_and_target
    (inputPath outputPath fromFormat toFormat : string) (options : jsval) (cmd : string) :
  buildPandocCommand inputPath outputPath fromFormat toFormat options = Ok cmd →
  (option_set options "toc" = true → toFormat ∈ toc_targets →
   includes cmd toc_flag = true) ∧
  (free_of toc_depth_token inputPath outputPath fromFormat toFormat →
   includes cmd toc_flag = true →
   option_set options "toc" = true ∧ toFormat ∈ toc_targets) ∧
  (free_of toc_depth_token inputPath outputPath fromFormat toFormat →
   toFormat = "markdown" → includes cmd toc_flag = false).
Proof.
  intros (o & Ho & ->)%buildPandocCommand_Ok.
  destruct (read_options_set _ _ Ho) as (Htoc & _).
  assert (Honly : free_of toc_depth_token inputPath outputPath fromFormat toFormat →
                  includes (buildPandocCommand_body inputPath outputPath fromFormat
                              toFormat o) toc_flag = true →
                  option_set options "toc" = true ∧ toFormat ∈ toc_targets).
  { intros Hfree Hcmd. rewrite <- Htoc, <- array_includes_true.
    apply andb_true_iff.
    rewrite <- (flags_toc_depth_token fromFormat toFormat o).
    apply (includes_drop _ " --toc ") in Hcmd.
    rewrite buildPandocCommand_body_split in Hcmd.
    by eapply free_of_occurrence. }
  split; [|split; [done|]].
  - intros Hset Hin%array_includes_true. apply flags_toc_flag.
    by rewrite Htoc, Hset, Hin.
  - intros Hfree ->. apply not_true_is_false. intros Hcmd.
    destruct (Honly Hfree Hcmd) as [_ Hin%array_includes_true]. by vm_compute in Hin.
Qed.

Lemma toc_flag_iff_option_and_target_witness :
  let options := JObj [("toc", JBool true)] in
  let flags := mkOptionFlags true false false false in
  let html := buildPandocCommand_body "uploads/1-a.md" "downloads/a-1.html"
                "markdown" "html" flags in
  let md := buildPandocCommand_body "uploads/1-a.html" "downloads/a-1.md"
              "html" "markdown" flags in
  (buildPandocCommand "uploads/1-a.md" "downloads/a-1.html" "markdown" "html" options
     = Ok html ∧
   option_set options "toc" = true ∧ "html" ∈ toc_targets ∧
   includes html toc_flag = true) ∧
  (buildPandocCommand "uploads/1-a.html" "downloads/a-1.md" "html" "markdown" options
     = Ok md ∧
   free_of toc_depth_token "uploads/1-a.html" "downloads/a-1.md" "html" "markdown" ∧
   includes md toc_flag = false).
Proof.
  intros options flags html md.
  assert (Hhtml : buildPandocCommand "uploads/1-a.md" "downloads/a-1.html"
                    "markdown" "html" options = Ok html) by reflexivity.
  assert (Hmd : buildPandocCommand "uploads/1-a.html" "downloads/a-1.md"
                  "html" "markdown" options = Ok md) by reflexivity.
  assert (Hset : option_set options "toc" = true) by reflexivity.
  assert (Hin : "html" ∈ toc_targets) by (apply array_includes_true; reflexivity).
  assert (Hfree : free_of toc_depth_token "uploads/1-a.html" "downloads/a-1.md"
                    "html" "markdown") by (repeat split; reflexivity).
  destruct (toc_flag_iff_option_and_target _ _ _ _ _ _ Hhtml) as (Hif & _ & _).
  destruct (toc_flag_iff_option_and_target _ _ _ _ _ _ Hmd) as (_ & _ & Hnever).
  exact (conj (conj Hhtml (conj Hset (conj Hin (Hif Hset Hin))))
              (conj Hmd (conj Hfree (Hnever Hfree eq_refl)))).
Defined.

(** C5: for every source-format and target-format string the builder
    produces a command, whatever the strings are (there is no check against
    the catalog; only [null] options make it throw), and the command
    contains both strings verbatim, in the text [ -f <from> -t <to> -o ]. *)
Theorem formats_interpolated_verbatim
    (inputPath outputPath fromFormat toFormat : string) (options : jsval) :
  options ≠ JNull →
  ∃ cmd,
    buildPandocCommand inputPath outputPath fromFormat toFormat options = Ok cmd ∧
    includes cmd (" -f " +:+ fromFormat +:+ " -t " +:+ toFormat +:+ " -o ") = true ∧
    includes cmd fromFormat = true ∧
    includes cmd toFormat = true.
Proof.
  intros [o Ho]%read_options_Ok.
  exists (buildPandocCommand_body inputPath outputPath fromFormat toFormat o).
  split; [unfold buildPandocCommand; by rewrite Ho|].
  rewrite buildPandocCommand_body_split.
  assert (Htemplate :
    command_template inputPath outputPath fromFormat toFormat =
    ("pandoc " +:+ dq +:+ inputPath +:+ dq) +:+
    (" -f " +:+ fromFormat +:+ " -t " +:+ toFormat +:+ " -o ") +:+
    (dq +:+ outputPath +:+ dq)).
  { unfold command_template. by rewrite !str_app_assoc. }
  assert (Hwhole : includes (command_template inputPath outputPath fromFormat toFormat)
                     (" -f " +:+ fromFormat +:+ " -t " +:+ toFormat +:+ " -o ") = true).
  { rewrite Htemplate. apply includes_mid. }
  assert (Hfrom :
    command_template inputPath outputPath fromFormat toFormat =
    ("pandoc " +:+ dq +:+ inputPath +:+ dq +:+ " -f ") +:+ fromFormat +:+
    (" -t " +:+ toFormat +:+ " -o " +:+ dq +:+ outputPath +:+ dq)).
  { unfold command_template. by rewrite !str_app_assoc. }
  assert (Hto :
    command_template inputPath outputPath fromFormat toFormat =
    ("pandoc " +:+ dq +:+ inputPath +:+ dq +:+ " -f " +:+ fromFormat +:+ " -t ") +:+
    toFormat +:+ (" -o " +:+ dq +:+ outputPath +:+ dq)).
  { unfold command_template. by rewrite !str_app_assoc. }
  split; [by apply includes_app_l|].
  split; apply includes_app_l.
  - rewrite Hfrom. apply includes_mid.
  - rewrite Hto. apply includes_mid.
Qed.

Lemma formats_interpolated_verbatim_witness :
  JObj [] ≠ JNull ∧
  ∃ cmd,
    buildPandocCommand "uploads/1-a.md" "downloads/a-1.txt" "no such format"
      "; echo pwned" (JObj []) = Ok cmd ∧
    includes cmd (" -f " +:+ "no such format" +:+ " -t " +:+ "; echo pwned" +:+ " -o ")
      = true ∧
    includes cmd "no such format" = true ∧
    includes cmd "; echo pwned" = true.
Proof.
  assert (Hoptions : JObj [] ≠ JNull) by discriminate.
  exact (conj Hoptions
           (formats_interpolated_verbatim "uploads/1-a.md" "downloads/a-1.txt"
              "no such format" "; echo pwned" (JObj []) Hoptions)).
Defined.

(** C6, as stated ("only for those source formats"), fails: a target
    format that carries the flag text requests media extraction although
    the source format is markdown. *)
Lemma extract_media_flag_injected :
  ∃ cmd,
    buildPandocCommand "uploads/1-a.md" "downloads/a-1.txt" "markdown"
      "markdown --extract-media=./uploads/media" (JObj []) = Ok cmd ∧
    includes cmd extract_media_flag = true ∧
    "markdown" ∉ media_sources.
Proof.
  eexists. split; [reflexivity|]. split; [by vm_compute|].
  intros Hin%array_includes_true. by vm_compute in Hin.
Qed.

(** C6 (amended): the built command requests media extraction into
    [./uploads/media] whenever the source format is one of docx, odt, epub;
    and when none of the input path, output path, source format and target
    format contains the text [--extract-media=./uploads/media], it does so
    only then. *)
Theorem extract_media_iff_source
    (inputPath outputPath fromFormat toFormat : string) (options : jsval) (cmd : string) :
  buildPandocCommand inputPath outputPath fromFormat toFormat options = Ok cmd →
  (fromFormat ∈ media_sources → includes cmd extract_media_flag = true) ∧
  (free_of extract_media_token inputPath outputPath fromFormat toFormat →
   includes cmd extract_media_flag = true → fromFormat ∈ media_sources).
Proof.
  intros (o & _ & ->)%buildPandocCommand_Ok. split.
  - intros Hin%array_includes_true. by apply flags_extract_media_flag.
  - intros Hfree Hcmd. apply array_includes_true.
    rewrite <- (flags_extract_media_token fromFormat toFormat o).
    apply (includes_drop _ " ") in Hcmd.
    rewrite buildPandocCommand_body_split in Hcmd.
    by eapply free_of_occurrence.
Qed.

Lemma extract_media_iff_source_witness :
  let cmd := buildPandocCommand_body "uploads/1-a.docx" "downloads/a-1.md"
               "docx" "markdown" (mkOptionFlags false false false false) in
  buildPandocCommand "uploads/1-a.docx" "downloads/a-1.md" "docx" "markdown" (JObj [])
    = Ok cmd ∧
  free_of extract_media_token "uploads/1-a.docx" "downloads/a-1.md" "docx" "markdown" ∧
  includes cmd extract_media_flag = true ∧
  "docx" ∈ media_sources.
Proof.
  intros cmd.
  assert (Hbuild : buildPandocCommand "uploads/1-a.docx" "downloads/a-1.md"
                     "docx" "markdown" (JObj []) = Ok cmd) by reflexivity.
  assert (Hfree : free_of extract_media_token "uploads/1-a.docx" "downloads/a-1.md"
                    "docx" "markdown") by (repeat split; reflexivity).
  assert (Hcmd : includes cmd extract_media_flag = true) by (vm_compute; reflexivity).
  destruct (extract_media_iff_source _ _ _ _ _ _ Hbuild) as [_ Honly].
  exact (conj Hbuild (conj Hfree (conj Hcmd (Honly Hfree Hcmd)))).
Defined.

(** ** The extension table *)

Lemma own_property_None (props : list (string * jsval)) (key : string) :
  key ∉ (props.*1) → own_property props key = None.
Proof.
  induction props as [|[k v] props IH]; [done|].
  intros Hkey. cbn [own_property]. rewrite bool_decide_eq_false_2.
  - apply IH. intros Hin. apply Hkey. by right.
  - intros ->. apply Hkey. by left.
Qed.

(** The catalog formats map to their catalog extension. *)
Lemma getOutputExtension_catalog (format ext : string) :
  (format, ext) ∈ output_catalog → getOutputExtension format = JStr ext.
Proof.
  unfold output_catalog. intros Hin.
  repeat (apply elem_of_cons in Hin as [Heq|Hin];
          [apply pair_eq in Heq as [-> ->]; by vm_compute|]).
  by apply elem_of_nil in Hin.
Qed.

(** Any other string that is not the name of an inherited property maps to
    [.txt]. *)
Lemma getOutputExtension_fallback (format : string) :
  format ∉ (output_catalog.*1) → inherited_property format = None →
  getOutputExtension format = JStr ".txt".
Proof.
  intros Hcat Hinh. unfold getOutputExtension, get_property.
  rewrite own_property_None, Hinh; [reflexivity|exact Hcat].
Qed.

(** C10: at the format string "constructor", which is not one of the
    fourteen catalog formats, [getOutputExtension] does not return [.txt]:
    the lookup finds the property inherited from [Object.prototype], a
    function, which is truthy and is returned as is. *)
Theorem getOutputExtension_constructor :
  ("constructor" ∉ output_catalog.*1) ∧
  getOutputExtension "constructor" = JFun "Object" ∧
  toString (getOutputExtension "constructor") = "function Object() { [native code] }".
Proof.
  split; [|split; by vm_compute].
  apply (bool_decide_eq_false_1 _). by vm_compute.
Qed.

(** ** The single converter *)

Section ServerProperties.
Context `{Runtime}.

Lemma convertFile_throws_before_exec
    (inputPath outputPath fromFormat toFormat : string) (options : jsval)
    (st : St) (e : string) :
  buildPandocCommand inputPath outputPath fromFormat toFormat options = Throw e →
  convertFile inputPath outputPath fromFormat toFormat options st = (Throw e, st).
Proof. intros Hbuild. unfold convertFile. by rewrite Hbuild. Qed.

Lemma convertFile_after_exec
    (inputPath outputPath fromFormat toFormat : string) (options : jsval)
    (st : St) (cmd : string) (out : ExecOutcome) (os' : OS) :
  buildPandocCommand inputPath outputPath fromFormat toFormat options = Ok cmd →
  exec cmd (st_os st) = (out, os') →
  convertFile inputPath outputPath fromFormat toFormat options st =
  (match exec_error out with
   | Some message =>
       Throw ("Conversion failed: " +:+
              (if bool_decide (exec_stderr out = "") then message else exec_stderr out))
   | None => Ok outputPath
   end, mkSt os' (st_executed st ++ [cmd])).
Proof.
  intros Hbuild Hexec. unfold convertFile. rewrite Hbuild, Hexec.
  by destruct (exec_error out).
Qed.

(** C8: when the engine has run and reported an error, the conversion
    fails with a message that carries the engine's stderr text if that is
    non-empty and the error's own message otherwise; when it reported no
    error, the conversion resolves with the output path, whatever files
    exist afterwards. *)
Theorem convertFile_outcome
    (inputPath outputPath fromFormat toFormat : string) (options : jsval)
    (st : St) (cmd : string) (out : ExecOutcome) (os' : OS) :
  buildPandocCommand inputPath outputPath fromFormat toFormat options = Ok cmd →
  exec cmd (st_os st) = (out, os') →
  let outcome := (convertFile inputPath outputPath fromFormat toFormat options st).1 in
  (∀ message, exec_error out = Some message → exec_stderr out ≠ "" →
     outcome = Throw ("Conversion failed: " +:+ exec_stderr out)) ∧
  (∀ message, exec_error out = Some message → exec_stderr out = "" →
     outcome = Throw ("Conversion failed: " +:+ message)) ∧
  (exec_error out = None → outcome = Ok outputPath).
Proof.
  intros Hbuild Hexec outcome. subst outcome.
  rewrite (convertFile_after_exec _ _ _ _ _ _ _ _ _ Hbuild Hexec). cbn [fst].
  split; [|split].
  - intros message -> Hstderr. by rewrite bool_decide_eq_false_2.
  - intros message -> Hstderr. by rewrite bool_decide_eq_true_2.
  - by intros ->.
Qed.

(** ** Empty uploads *)

(** C9: a single-file request without a file, and a batch request whose
    file list is missing or empty, are answered with status 400 and a JSON
    error body; the state is untouched (no command is run, no file is
    created or removed), and the options are not even parsed. *)
Theorem empty_upload_rejected (body : Body) (st : St) :
  apiConvert (mkConvertRequest None body) st = (Ok (RJson 400 "No file uploaded"), st) ∧
  apiConvertBatch (mkBatchRequest None body) st = (Ok (RJson 400 "No files uploaded"), st) ∧
  apiConvertBatch (mkBatchRequest (Some []) body) st
    = (Ok (RJson 400 "No files uploaded"), st).
Proof. repeat split. Qed.

(** ** The batch loop *)

Lemma convertAll_cons (file : UploadedFile) (rest : list UploadedFile)
    (fromFormat toFormat : string) (options : jsval) (timestamp : N)
    (conversions : list Conversion) (st : St) :
  let outputPath := derive_output_path (originalname file) timestamp toFormat in
  convertAll (file :: rest) fromFormat toFormat options timestamp conversions st =
  match convertFile (file_path file) outputPath fromFormat toFormat options st with
  | (Ok _, st') =>
      convertAll rest fromFormat toFormat options timestamp
        (conversions ++ [mkConversion (originalname file) (Some (path_basename outputPath))
                                      (Some outputPath) None true]) st'
  | (Throw message, st') =>
      convertAll rest fromFormat toFormat options timestamp
        (conversions ++ [mkConversion (originalname file) None None (Some message) false]) st'
  end.
Proof.
  intros outputPath. cbn [convertAll]. fold outputPath.
  unfold mbind, M_bind, try_catch, mret, M_ret.
  by destruct (convertFile _ _ _ _ _ st) as [[?|?] ?].
Qed.

(** The loop never throws: it ends with one record per file, appended in
    upload order to the records it started from. *)
Lemma convertAll_records (files : list UploadedFile) (fromFormat toFormat : string)
    (options : jsval) (timestamp : N) (conversions : list Conversion) (st : St) :
  ∃ added st',
    convertAll files fromFormat toFormat options timestamp conversions st
      = (Ok (conversions ++ added), st') ∧
    Forall2 (records timestamp toFormat) files added.
Proof.
  revert conversions st. induction files as [|file rest IH]; intros conversions st.
  - exists [], st. split; [|constructor]. cbn [convertAll]. by rewrite app_nil_r.
  - rewrite convertAll_cons.
    destruct (convertFile _ _ _ _ _ st) as [[p|message] st1].
    + destruct (IH (conversions ++ [mkConversion (originalname file)
                      (Some (path_basename (derive_output_path (originalname file)
                                              timestamp toFormat)))
                      (Some (derive_output_path (originalname file) timestamp toFormat))
                      None true]) st1) as (added & st' & -> & Hadded).
      eexists (_ :: added), st'. split; [by rewrite <- app_assoc|].
      constructor; [by left|done].
    + destruct (IH (conversions ++ [mkConversion (originalname file) None None
                                      (Some message) false]) st1)
        as (added & st' & -> & Hadded).
      eexists (_ :: added), st'. split; [by rewrite <- app_assoc|].
      constructor; [right; by eexists|done].
Qed.

(** With readable options, the loop runs exactly one command per file, in
    upload order, each writing to the path derived from the shared
    timestamp. *)
Lemma convertAll_executed (files : list UploadedFile) (fromFormat toFormat : string)
    (options : jsval) (o : OptionFlags) (timestamp : N)
    (conversions : list Conversion) (st : St) :
  read_options options = Ok o →
  st_executed (convertAll files fromFormat toFormat options timestamp conversions st).2 =
  st_executed st ++ (command_for timestamp fromFormat toFormat o <$> files).
Proof.
  intros Ho. revert conversions st.
  induction files as [|file rest IH]; intros conversions st.
  - cbn [convertAll fmap list_fmap]. by rewrite app_nil_r.
  - rewrite convertAll_cons.
    assert (Hbuild : buildPandocCommand (file_path file)
                       (derive_output_path (originalname file) timestamp toFormat)
                       fromFormat toFormat options
                     = Ok (command_for timestamp fromFormat toFormat o file)).
    { unfold buildPandocCommand. by rewrite Ho. }
    destruct (exec (command_for timestamp fromFormat toFormat o file) (st_os st))
      as [out os'] eqn:Hexec.
    rewrite (convertFile_after_exec _ _ _ _ _ _ _ _ _ Hbuild Hexec).
    destruct (exec_error out); rewrite IH; cbn [st_executed];
      by rewrite fmap_cons, <- app_assoc.
Qed.

(** ** The archive *)

Lemma archive_entries_app (a b : list Conversion) :
  archive_entries (a ++ b) = archive_entries a ++ archive_entries b.
Proof.
  induction a as [|conv a IH]; [done|].
  cbn [app archive_entries]. destruct (archivable conv); by rewrite IH.
Qed.

Lemma successes_cons (conv : Conversion) (conversions : list Conversion) :
  successes (conv :: conversions) =
  (if conv_success conv then 1 else 0) + successes conversions.
Proof.
  unfold successes. rewrite filter_cons.
  destruct (conv_success conv); by case_decide.
Qed.

(** On successful records, [conv.success && conv.path] is just
    [conv.success], because [path.join] never yields the empty string. *)
Lemma archive_entries_records (timestamp : N) (toFormat : string)
    (files : list UploadedFile) (conversions : list Conversion) :
  (∀ a b, path_join a b ≠ "") →
  Forall2 (records timestamp toFormat) files conversions →
  archive_entries conversions =
    omap (λ fc, if conv_success fc.2 then Some (entry_for timestamp toFormat fc.1) else None)
         (zip files conversions) ∧
  length (archive_entries conversions) = successes conversions.
Proof.
  intros Hjoin. induction 1 as [|file conv files conversions Hrec _ [IHe IHl]]; [done|].
  rewrite successes_cons. cbn [zip zip_with omap list_omap archive_entries].
  destruct Hrec as [->|[message ->]]; unfold archivable; cbn [conv_success conv_path fst snd].
  - rewrite bool_decide_eq_false_2 by apply Hjoin.
    cbn [negb andb default from_option conv_path conv_converted length].
    rewrite IHl. split; [|done]. by rewrite <- IHe.
  - cbn [andb]. by split.
Qed.

(** ** Steps that run no command *)

Lemma runs_nothing_mret {A} (a : A) : runs_nothing (mret a).
Proof. by intros st. Qed.

Lemma runs_nothing_bind {A B} (m : M A) (k : A → M B) :
  runs_nothing m → (∀ a, runs_nothing (k a)) → runs_nothing (m ≫= k).
Proof.
  intros Hm Hk st. unfold mbind, M_bind. specialize (Hm st).
  destruct (m st) as [[a|e] st1]; cbn [snd] in *; [|done].
  by rewrite Hk.
Qed.

Lemma runs_nothing_try_catch {A} (body : M A) (handler : string → M A) :
  runs_nothing body → (∀ e, runs_nothing (handler e)) → runs_nothing (try_catch body handler).
Proof.
  intros Hm Hk st. unfold try_catch. specialize (Hm st).
  destruct (body st) as [[a|e] st1]; cbn [snd] in *; [done|].
  by rewrite Hk.
Qed.

Lemma runs_nothing_unlink (path : string) : runs_nothing (unlink path).
Proof. intros st. unfold unlink. by case_bool_decide. Qed.

Lemma runs_nothing_createWriteStream (path : string) : runs_nothing (createWriteStream path).
Proof. by intros st. Qed.

Lemma runs_nothing_for_each {A} (xs : list A) (body : A → M unit) :
  (∀ x, runs_nothing (body x)) → runs_nothing (for_each xs body).
Proof.
  intros Hbody. induction xs as [|x xs IH]; [apply runs_nothing_mret|].
  cbn [for_each]. by apply runs_nothing_bind.
Qed.

Lemma runs_nothing_cleanupBatch (files : list UploadedFile) (conversions : list Conversion)
    (zipPath : string) :
  runs_nothing (cleanupBatch files conversions zipPath).
Proof.
  apply runs_nothing_try_catch; [|intros; apply runs_nothing_mret].
  apply runs_nothing_bind; [|intros _; apply runs_nothing_bind; intros].
  - apply runs_nothing_for_each. intros. apply runs_nothing_unlink.
  - apply runs_nothing_for_each. intros conv.
    destruct (archivable conv); [apply runs_nothing_unlink|apply runs_nothing_mret].
  - apply runs_nothing_unlink.
Qed.

(** The cleanup callback swallows its own failures. *)
Lemma cleanupBatch_returns (files : list UploadedFile) (conversions : list Conversion)
    (zipPath : string) (st : St) :
  ∃ st', cleanupBatch files conversions zipPath st = (Ok tt, st').
Proof.
  unfold cleanupBatch, try_catch.
  match goal with |- context [match ?body st with _ => _ end] => destruct (body st) as [[[]|e] st1] end;
    eauto.
Qed.

Lemma parse_options_state (options : option string) (st : St) (parsed : jsval) :
  (parse_options options st).1 = Ok parsed →
  parse_options options st = (Ok parsed, st).
Proof.
  unfold parse_options, mret, M_ret.
  destruct options as [text|]; [case_bool_decide|]; cbn [fst]; by intros ->.
Qed.

(** ** The batch endpoint *)

(** The handler, once the upload guard and the option parser are passed. *)
Lemma apiConvertBatch_run (req : BatchRequest) (files : list UploadedFile)
    (options : jsval) (st : St) :
  req_files req = Some files → files ≠ [] →
  (parse_options (body_options (batch_body req)) st).1 = Ok options →
  let timestamp := os_clock (st_os st) in
  let fromFormat := body_fromFormat (batch_body req) in
  let toFormat := body_toFormat (batch_body req) in
  ∃ conversions st1 st2,
    convertAll files fromFormat toFormat options timestamp [] st = (Ok conversions, st1) ∧
    Forall2 (records timestamp toFormat) files conversions ∧
    apiConvertBatch req st =
      (let zipPath := path_join "downloads" ("converted-" +:+ pretty timestamp +:+ ".zip") in
       Ok (RArchive zipPath "converted-documents.zip"
             (filter (λ entry, entry_source entry ∈ {[zipPath]} ∪ os_files (st_os st1))
                     (archive_entries conversions))), st2) ∧
    st_executed st2 = st_executed st1.
Proof.
  intros Hfiles Hne Hparse%parse_options_state timestamp fromFormat toFormat.
  destruct (convertAll_records files fromFormat toFormat options timestamp [] st)
    as (conversions & st1 & Hloop & Hrec).
  rewrite app_nil_l in Hloop.
  pose (zipPath := path_join "downloads" ("converted-" +:+ pretty timestamp +:+ ".zip")).
  destruct (cleanupBatch_returns files conversions zipPath (createWriteStream zipPath st1).2)
    as [st2 Hclean].
  exists conversions, st1, st2. split; [done|]. split; [done|].
  assert (Hexecuted : st_executed st2 = st_executed st1).
  { pose proof (runs_nothing_cleanupBatch files conversions zipPath
                  (createWriteStream zipPath st1).2) as Hnothing.
    rewrite Hclean in Hnothing. exact Hnothing. }
  split; [|done].
  unfold apiConvertBatch. rewrite Hfiles.
  destruct files as [|file rest]; [done|].
  unfold try_catch at 1. unfold mbind at 1, M_bind at 1. rewrite Hparse.
  unfold mbind at 1, M_bind at 1. unfold Date_now at 1.
  unfold mbind at 1, M_bind at 1.
  fold timestamp fromFormat toFormat. rewrite Hloop.
  unfold mbind at 1, M_bind at 1. fold zipPath.
  change (createWriteStream zipPath st1) with (Ok tt, (createWriteStream zipPath st1).2).
  unfold mbind at 1, M_bind at 1. unfold archive_finalize at 1.
  unfold mbind at 1, M_bind at 1. unfold res_download at 1.
  rewrite bool_decide_eq_true_2
    by (cbn [createWriteStream snd st_os os_files]; apply elem_of_union_l,
        elem_of_singleton; reflexivity).
  unfold mbind at 1, M_bind at 1. rewrite Hclean. reflexivity.
Qed.

Lemma apiConvertBatch_executed (req : BatchRequest) (files : list UploadedFile)
    (options : jsval) (o : OptionFlags) (st : St) :
  req_files req = Some files → files ≠ [] →
  (parse_options (body_options (batch_body req)) st).1 = Ok options →
  read_options options = Ok o →
  st_executed (apiConvertBatch req st).2 =
  st_executed st ++
    (command_for (os_clock (st_os st)) (body_fromFormat (batch_body req))
       (body_toFormat (batch_body req)) o <$> files).
Proof.
  intros Hfiles Hne Hparse Ho.
  destruct (apiConvertBatch_run req files options st Hfiles Hne Hparse)
    as (conversions & st1 & st2 & Hloop & _ & -> & Hexecuted).
  cbn [snd]. rewrite Hexecuted.
  pose proof (convertAll_executed files (body_fromFormat (batch_body req))
                (body_toFormat (batch_body req)) options o (os_clock (st_os st)) [] st Ho)
    as Hcmds.
  by rewrite Hloop in Hcmds.
Qed.

(** ** What the loop records, and what the archive holds *)

(** The loop records, for each file, what [convertFile] returned for it,
    each call starting in the state the previous one left. *)
Lemma convertAll_run_conversions (files : list UploadedFile) (fromFormat toFormat : string)
    (options : jsval) (timestamp : N) (conversions : list Conversion) (st : St) :
  convertAll files fromFormat toFormat options timestamp conversions st =
  (Ok (conversions ++
       zip_with (record_of timestamp toFormat) files
         (run_conversions files fromFormat toFormat options timestamp st).1),
   (run_conversions files fromFormat toFormat options timestamp st).2).
Proof.
  revert conversions st. induction files as [|file rest IH]; intros conversions st.
  - cbn [convertAll run_conversions zip_with fst snd]. by rewrite app_nil_r.
  - rewrite convertAll_cons. cbn [run_conversions].
    destruct (convertFile _ _ _ _ _ st) as [[p|message] st1]; rewrite IH;
      destruct (run_conversions rest fromFormat toFormat options timestamp st1)
        as [outcomes st2];
      cbn [fst snd zip_with record_of]; by rewrite <- app_assoc.
Qed.

Lemma run_conversions_length (files : list UploadedFile) (fromFormat toFormat : string)
    (options : jsval) (timestamp : N) (st : St) :
  length (run_conversions files fromFormat toFormat options timestamp st).1 = length files.
Proof.
  revert st. induction files as [|file rest IH]; intros st; [done|].
  cbn [run_conversions]. destruct (convertFile _ _ _ _ _ st) as [outcome st1].
  specialize (IH st1).
  destruct (run_conversions rest fromFormat toFormat options timestamp st1)
    as [outcomes st2].
  cbn [fst length] in *. by rewrite IH.
Qed.

(** The successes among the records are the conversions that resolved. *)
Lemma successes_record_of (timestamp : N) (toFormat : string)
    (files : list UploadedFile) (outcomes : list (result string)) :
  length outcomes = length files →
  successes (zip_with (record_of timestamp toFormat) files outcomes) =
  length (filter (λ outcome, resolved outcome = true) outcomes).
Proof.
  revert outcomes. induction files as [|file rest IH]; intros [|outcome outcomes] Hlen;
    try done.
  cbn [zip_with]. rewrite successes_cons, filter_cons.
  rewrite IH by (cbn [length] in Hlen; lia).
  by destruct outcome as [p|message]; cbn [record_of conv_success resolved]; case_decide.
Qed.

(** The [archive.file] calls made for the records: one per conversion that
    resolved, because [path.join] never yields the empty string. *)
Lemma archive_entries_record_of (timestamp : N) (toFormat : string)
    (files : list UploadedFile) (outcomes : list (result string)) :
  (∀ a b, path_join a b ≠ "") →
  archive_entries (zip_with (record_of timestamp toFormat) files outcomes) =
  omap (λ fo : UploadedFile * result string,
          if resolved fo.2 then Some (entry_for timestamp toFormat fo.1) else None)
       (zip files outcomes).
Proof.
  intros Hjoin. revert outcomes.
  induction files as [|file rest IH]; intros [|outcome outcomes]; try done.
  cbn [zip zip_with omap list_omap archive_entries fst snd]. fold (zip rest outcomes).
  destruct outcome as [p|message];
    unfold archivable; cbn [record_of conv_success conv_path resolved andb].
  - rewrite bool_decide_eq_false_2 by apply Hjoin.
    cbn [negb default from_option conv_path conv_converted]. by rewrite IH.
  - apply IH.
Qed.

(** Of these calls, the archive keeps those whose source is on disk. *)
Lemma entries_on_disk_filter (timestamp : N) (toFormat : string) (disk : gset string)
    (files : list UploadedFile) (outcomes : list (result string)) :
  filter (λ entry, entry_source entry ∈ disk)
    (omap (λ fo : UploadedFile * result string,
             if resolved fo.2 then Some (entry_for timestamp toFormat fo.1) else None)
          (zip files outcomes)) =
  entries_on_disk timestamp toFormat disk files outcomes.
Proof.
  unfold entries_on_disk. induction (zip files outcomes) as [|[file outcome] l IH]; [done|].
  cbn [omap list_omap fst snd]. destruct (resolved outcome); cbn [andb]; [|exact IH].
  rewrite filter_cons. cbn [entry_for entry_source].
  case_bool_decide; case_decide; try done; by rewrite IH.
Qed.

(** The archive never holds more entries than there are successes, and it
    holds as many exactly when every output of a resolved conversion is on
    disk. *)
Lemma entries_on_disk_length (timestamp : N) (toFormat : string) (disk : gset string)
    (files : list UploadedFile) (outcomes : list (result string)) :
  length (entries_on_disk timestamp toFormat disk files outcomes) ≤
    successes (zip_with (record_of timestamp toFormat) files outcomes) ∧
  (length (entries_on_disk timestamp toFormat disk files outcomes) =
     successes (zip_with (record_of timestamp toFormat) files outcomes) ↔
   ∀ file outcome, (file, outcome) ∈ zip files outcomes → resolved outcome = true →
     derive_output_path (originalname file) timestamp toFormat ∈ disk).
Proof.
  unfold entries_on_disk. revert outcomes.
  induction files as [|file rest IH]; intros [|outcome outcomes];
    try (split; [done|split; [by intros _ ? ? ?%elem_of_nil|done]]).
  destruct (IH outcomes) as [IHle [IHall IHeq]]. clear IH.
  cbn [zip zip_with omap list_omap fst snd]. fold (zip rest outcomes).
  rewrite successes_cons.
  destruct outcome as [p|message]; cbn [record_of conv_success resolved andb].
  - case_bool_decide as Hdisk; cbn [length].
    + split; [lia|]. split.
      * intros Heq f o [[= -> ->]|Hin]%elem_of_cons Hres; [done|].
        apply (IHall ltac:(lia) f o Hin Hres).
      * intros Hall. f_equal. apply IHeq. intros f o Hin. apply Hall. by right.
    + split; [lia|]. split; [lia|].
      intros Hall. destruct Hdisk. by apply (Hall file (Ok p)); [left|].
  - split; [lia|]. rewrite Nat.add_0_l. split.
    + intros Heq f o [[= -> ->]|Hin]%elem_of_cons Hres; [done|].
      apply (IHall Heq f o Hin Hres).
    + intros Hall. apply IHeq. intros f o Hin. apply Hall. by right.
Qed.

(** C1 (as amended): a batch request that passes the upload guard and
    whose options parse is never aborted by a failing file.  The loop
    calls [convertFile] once per uploaded file, in upload order, and
    records for each file what that call returned: a success with the
    derived output path and its basename when it resolved, a failure with
    the error message when it rejected; K is the number of calls that
    resolved.  The commands are run in upload order.  The response is the
    archive download, whatever K is; its entries are, in upload order, the
    successful conversions whose output file is on disk when the archive is
    finalized, each named by the basename of its derived output path.
    There are at most K of them, and exactly K if and only if every
    successful conversion's output file is on disk. *)
Theorem batch_archive_holds_outputs_on_disk (req : BatchRequest)
    (files : list UploadedFile) (options : jsval) (st : St) :
  req_files req = Some files → files ≠ [] →
  (parse_options (body_options (batch_body req)) st).1 = Ok options →
  (∀ a b, path_join a b ≠ "") →
  let timestamp := os_clock (st_os st) in
  let fromFormat := body_fromFormat (batch_body req) in
  let toFormat := body_toFormat (batch_body req) in
  let run := run_conversions files fromFormat toFormat options timestamp st in
  let outcomes := run.1 in
  let conversions := zip_with (record_of timestamp toFormat) files outcomes in
  let zipPath := path_join "downloads" ("converted-" +:+ pretty timestamp +:+ ".zip") in
  let disk := {[zipPath]} ∪ os_files (st_os run.2) in
  let entries := entries_on_disk timestamp toFormat disk files outcomes in
  length outcomes = length files ∧
  convertAll files fromFormat toFormat options timestamp [] st = (Ok conversions, run.2) ∧
  successes conversions = length (filter (λ outcome, resolved outcome = true) outcomes) ∧
  (∀ o, read_options options = Ok o →
     st_executed (apiConvertBatch req st).2 =
     st_executed st ++ (command_for timestamp fromFormat toFormat o <$> files)) ∧
  (apiConvertBatch req st).1 = Ok (RArchive zipPath "converted-documents.zip" entries) ∧
  length entries ≤ successes conversions ∧
  (length entries = successes conversions ↔
   ∀ file outcome, (file, outcome) ∈ zip files outcomes → resolved outcome = true →
     derive_output_path (originalname file) timestamp toFormat ∈ disk).
Proof.
  intros Hfiles Hne Hparse Hjoin timestamp fromFormat toFormat run outcomes conversions
    zipPath disk entries.
  pose proof (run_conversions_length files fromFormat toFormat options timestamp st)
    as Hlength.
  pose proof (convertAll_run_conversions files fromFormat toFormat options timestamp [] st)
    as Hloop.
  rewrite app_nil_l in Hloop. fold run in Hloop, Hlength.
  fold outcomes in Hloop, Hlength. fold conversions in Hloop.
  split; [exact Hlength|]. split; [exact Hloop|].
  split; [by apply successes_record_of|].
  split; [intros o Ho; by apply (apiConvertBatch_executed req files options)|].
  split; [|apply entries_on_disk_length].
  destruct (apiConvertBatch_run req files options st Hfiles Hne Hparse)
    as (conversions' & st1 & st2 & Hloop' & _ & Hrun & _).
  fold timestamp fromFormat toFormat in Hloop'. rewrite Hloop in Hloop'.
  apply pair_equal_spec in Hloop' as [Hconv <-]. apply Ok_inj in Hconv as <-.
  rewrite Hrun. cbn [fst]. fold timestamp zipPath disk. unfold conversions.
  rewrite (archive_entries_record_of _ _ _ _ Hjoin).
  by rewrite entries_on_disk_filter.
Qed.


(** C7: in a batch whose options are readable, the command run for each
    file writes to [downloads/<base name>-<timestamp><extension>], the
    timestamp being the one clock reading taken before the loop; two files
    with equal base names therefore get equal output paths. *)
Theorem batch_output_paths_share_timestamp (req : BatchRequest)
    (files : list UploadedFile) (options : jsval) (o : OptionFlags) (st : St) :
  req_files req = Some files → files ≠ [] →
  (parse_options (body_options (batch_body req)) st).1 = Ok options →
  read_options options = Ok o →
  let timestamp := os_clock (st_os st) in
  let fromFormat := body_fromFormat (batch_body req) in
  let toFormat := body_toFormat (batch_body req) in
  st_executed (apiConvertBatch req st).2 =
    st_executed st ++
    ((λ file, buildPandocCommand_body (file_path file)
                (derive_output_path (originalname file) timestamp toFormat)
                fromFormat toFormat o) <$> files) ∧
  (∀ file, file ∈ files →
     derive_output_path (originalname file) timestamp toFormat =
     path_join "downloads"
       (path_parse_name (originalname file) +:+ "-" +:+ pretty timestamp +:+
        toString (getOutputExtension toFormat))) ∧
  (∀ file1 file2, file1 ∈ files → file2 ∈ files →
     path_parse_name (originalname file1) = path_parse_name (originalname file2) →
     derive_output_path (originalname file1) timestamp toFormat =
     derive_output_path (originalname file2) timestamp toFormat).
Proof.
  intros Hfiles Hne Hparse Ho timestamp fromFormat toFormat.
  subst timestamp fromFormat toFormat.
  split; [by apply (apiConvertBatch_executed req files options)|]. split; [done|].
  intros file1 file2 _ _ Hname. unfold derive_output_path. by rewrite Hname.
Qed.

(** ** The single-file endpoint *)

Lemma apiConvert_failure (req : ConvertRequest) (file : UploadedFile)
    (options : jsval) (st st1 : St) (e : string) :
  req_file req = Some file →
  (parse_options (body_options (req_body req)) st).1 = Ok options →
  convertFile (file_path file)
    (derive_output_path (originalname file) (os_clock (st_os st))
       (body_toFormat (req_body req)))
    (body_fromFormat (req_body req)) (body_toFormat (req_body req)) options st
    = (Throw e, st1) →
  apiConvert req st = (Ok (RJson 500 e), st1).
Proof.
  intros Hfile Hparse%parse_options_state Hconv.
  unfold apiConvert. rewrite Hfile.
  unfold try_catch at 1. unfold mbind at 1, M_bind at 1. rewrite Hparse.
  unfold mbind at 1, M_bind at 1. unfold Date_now at 1.
  unfold mbind at 1, M_bind at 1. rewrite Hconv. reflexivity.
Qed.


(** C2: on the failure path of the single-file endpoint nothing is
    deleted.  When the conversion fails, the handler answers with status
    500 and leaves the state as the failed conversion left it, so the
    uploaded file is still in the upload directory after the request. *)
Theorem failed_conversion_leaves_upload (req : ConvertRequest) (file : UploadedFile)
    (options : jsval) (st st1 : St) (e : string) :
  req_file req = Some file →
  (parse_options (body_options (req_body req)) st).1 = Ok options →
  convertFile (file_path file)
    (derive_output_path (originalname file) (os_clock (st_os st))
       (body_toFormat (req_body req)))
    (body_fromFormat (req_body req)) (body_toFormat (req_body req)) options st
    = (Throw e, st1) →
  file_path file ∈ os_files (st_os st1) →
  (apiConvert req st).1 = Ok (RJson 500 e) ∧
  file_path file ∈ os_files (st_os (apiConvert req st).2).
Proof.
  intros Hfile Hparse Hconv Hin.
  by rewrite (apiConvert_failure req file options st st1 e Hfile Hparse Hconv).
Qed.

End ServerProperties.

(** ** Concrete runs *)

(** The scenario of the specification: one Markdown file converted to HTML
    with [toc] off gets the standalone and self-contained flags and no
    table-of-contents flag. *)
Example markdown_to_html_without_toc :
  ∃ cmd,
    buildPandocCommand "uploads/5-one.md" "downloads/one-7.html" "markdown" "html"
      (JObj [("toc", JBool false)]) = Ok cmd ∧
    includes cmd standalone_flag = true ∧
    includes cmd " --self-contained" = true ∧
    includes cmd toc_flag = false.
Proof. eexists. split; [reflexivity|]. by vm_compute. Qed.

Lemma demo_join_nonempty (a b : string) : a +:+ "/" +:+ b ≠ "".
Proof. by destruct a. Qed.

(** The scenario of the specification: three uploads, the second one
    corrupt; the archive holds the first and the third. *)
Example batch_second_file_corrupt :
  (apiConvertBatch (H := Demo.runtime)
     (mkBatchRequest (Some Demo.three_files) Demo.body) Demo.start).1 =
  Ok (RArchive "downloads/converted-7.zip" "converted-documents.zip"
        [ mkArchiveEntry "downloads/one-7.html" "one-7.html";
          mkArchiveEntry "downloads/three-7.html" "three-7.html" ]).
Proof. by vm_compute. Qed.

(** A batch in which every conversion fails still gets its archive. *)
Example batch_every_file_fails :
  (apiConvertBatch (H := Demo.runtime)
     (mkBatchRequest (Some [mkUploadedFile "corrupt.md" "uploads/5-corrupt.md"]) Demo.body)
     Demo.start).1 =
  Ok (RArchive "downloads/converted-7.zip" "converted-documents.zip" []).
Proof. by vm_compute. Qed.

Lemma batch_archive_holds_outputs_on_disk_witness :
  let req := mkBatchRequest (Some Demo.three_files) Demo.body in
  let run := run_conversions (H := Demo.runtime) Demo.three_files "markdown" "html"
               (JObj []) 7 Demo.start in
  let outcomes := run.1 in
  let conversions := zip_with (record_of (H := Demo.runtime) 7 "html")
                       Demo.three_files outcomes in
  let zipPath := "downloads/converted-7.zip" in
  let disk := {[zipPath]} ∪ os_files (st_os run.2) in
  let entries := entries_on_disk (H := Demo.runtime) 7 "html" disk Demo.three_files
                   outcomes in
  req_files req = Some Demo.three_files ∧
  Demo.three_files ≠ [] ∧
  (parse_options (H := Demo.runtime) (body_options (batch_body req)) Demo.start).1
    = Ok (JObj []) ∧
  (∀ a b, path_join (Runtime := Demo.runtime) a b ≠ "") ∧
  length outcomes = length Demo.three_files ∧
  convertAll (H := Demo.runtime) Demo.three_files "markdown" "html" (JObj []) 7 []
    Demo.start = (Ok conversions, run.2) ∧
  successes conversions = length (filter (λ outcome, resolved outcome = true) outcomes) ∧
  (∀ o, read_options (JObj []) = Ok o →
     st_executed (apiConvertBatch (H := Demo.runtime) req Demo.start).2 =
     st_executed Demo.start ++
       (command_for (H := Demo.runtime) 7 "markdown" "html" o <$> Demo.three_files)) ∧
  (apiConvertBatch (H := Demo.runtime) req Demo.start).1 =
    Ok (RArchive zipPath "converted-documents.zip" entries) ∧
  length entries ≤ successes conversions ∧
  (length entries = successes conversions ↔
   ∀ file outcome, (file, outcome) ∈ zip Demo.three_files outcomes →
     resolved outcome = true →
     derive_output_path (H := Demo.runtime) (originalname file) 7 "html" ∈ disk).
Proof.
  intros req.
  assert (Hfiles : req_files req = Some Demo.three_files) by reflexivity.
  assert (Hne : Demo.three_files ≠ []) by discriminate.
  assert (Hparse : (parse_options (H := Demo.runtime) (body_options (batch_body req))
                      Demo.start).1 = Ok (JObj [])) by reflexivity.
  assert (Hjoin : ∀ a b, path_join (Runtime := Demo.runtime) a b ≠ "")
    by exact demo_join_nonempty.
  exact (conj Hfiles (conj Hne (conj Hparse (conj Hjoin
           (batch_archive_holds_outputs_on_disk (H := Demo.runtime) req Demo.three_files
              (JObj []) Demo.start Hfiles Hne Hparse Hjoin))))).
Defined.

(** In that run the first and the third conversion resolve and the second
    is recorded with the engine's diagnostic. *)
Example batch_second_file_corrupt_records :
  (run_conversions (H := Demo.runtime) Demo.three_files "markdown" "html" (JObj []) 7
     Demo.start).1 =
    [ Ok "downloads/one-7.html";
      Throw "Conversion failed: pandoc: parse error";
      Ok "downloads/three-7.html" ] ∧
  (convertAll (H := Demo.runtime) Demo.three_files "markdown" "html" (JObj []) 7 []
     Demo.start).1 =
    Ok [ mkConversion "one.md" (Some "one-7.html") (Some "downloads/one-7.html") None true;
         mkConversion "corrupt.md" None None
           (Some "Conversion failed: pandoc: parse error") false;
         mkConversion "three.md" (Some "three-7.html") (Some "downloads/three-7.html")
           None true ].
Proof. split; by vm_compute. Qed.

(** C1 (counterexample): the number of archive entries is not always the
    number of successful conversions, and the response is not always the
    archive.  With two uploads, the engine exiting with status 0 on both
    but writing no output for the second, both conversions are recorded as
    successes (K = 2) and the archive has one entry.  With options that
    [JSON.parse] rejects, no conversion is attempted (K = 0) and the
    response is a server error. *)
Lemma batch_archive_drops_missing_output :
  let files := [ mkUploadedFile "one.md" "uploads/5-one.md";
                 mkUploadedFile "ghost.md" "uploads/5-ghost.md" ] in
  let st := mkSt (mkOS {[ "uploads/5-one.md"; "uploads/5-ghost.md" ]} 7) [] in
  ((convertAll (H := Demo.runtime) files "markdown" "html" (JObj []) 7 [] st).1 =
     Ok [ mkConversion "one.md" (Some "one-7.html") (Some "downloads/one-7.html") None true;
          mkConversion "ghost.md" (Some "ghost-7.html") (Some "downloads/ghost-7.html")
            None true ] ∧
   (apiConvertBatch (H := Demo.runtime) (mkBatchRequest (Some files) Demo.body) st).1 =
     Ok (RArchive "downloads/converted-7.zip" "converted-documents.zip"
           [ mkArchiveEntry "downloads/one-7.html" "one-7.html" ])) ∧
  (let req := mkBatchRequest (Some files) (mkBody "markdown" "html" (Some "{toc:")) in
   apiConvertBatch (H := Demo.runtime) req st =
     (Ok (RJson 500 "Unexpected token in JSON"), st)).
Proof. split; [split|]; by vm_compute. Qed.

Lemma batch_output_paths_share_timestamp_witness :
  let files := [ mkUploadedFile "a.md" "uploads/5-a.md";
                 mkUploadedFile "a.txt" "uploads/6-a.txt" ] in
  let req := mkBatchRequest (Some files) Demo.body in
  let o := mkOptionFlags false false false false in
  req_files req = Some files ∧ files ≠ [] ∧
  (parse_options (H := Demo.runtime) (body_options (batch_body req)) Demo.start).1
    = Ok (JObj []) ∧
  read_options (JObj []) = Ok o ∧
  st_executed (apiConvertBatch (H := Demo.runtime) req Demo.start).2 =
    [ buildPandocCommand_body "uploads/5-a.md" "downloads/a-7.html" "markdown" "html" o;
      buildPandocCommand_body "uploads/6-a.txt" "downloads/a-7.html" "markdown" "html" o ] ∧
  derive_output_path (H := Demo.runtime) "a.md" 7 "html" =
  derive_output_path (H := Demo.runtime) "a.txt" 7 "html".
Proof.
  intros files req o.
  assert (Hfiles : req_files req = Some files) by reflexivity.
  assert (Hne : files ≠ []) by discriminate.
  assert (Hparse : (parse_options (H := Demo.runtime) (body_options (batch_body req))
                      Demo.start).1 = Ok (JObj [])) by reflexivity.
  assert (Ho : read_options (JObj []) = Ok o) by reflexivity.
  destruct (batch_output_paths_share_timestamp (H := Demo.runtime) req files (JObj []) o
              Demo.start Hfiles Hne Hparse Ho) as (Hexecuted & _ & Hequal).
  refine (conj Hfiles (conj Hne (conj Hparse (conj Ho (conj Hexecuted _))))).
  apply (Hequal (mkUploadedFile "a.md" "uploads/5-a.md")
                (mkUploadedFile "a.txt" "uploads/6-a.txt")).
  - by left.
  - right. by left.
  - reflexivity.
Defined.

Lemma failed_conversion_leaves_upload_witness :
  let file := mkUploadedFile "corrupt.md" "uploads/5-corrupt.md" in
  let req := mkConvertRequest (Some file) Demo.body in
  let st1 := (convertFile (H := Demo.runtime) "uploads/5-corrupt.md"
                "downloads/corrupt-7.html" "markdown" "html" (JObj []) Demo.start).2 in
  "uploads/5-corrupt.md" ∈ os_files (st_os Demo.start) ∧
  (apiConvert (H := Demo.runtime) req Demo.start).1
    = Ok (RJson 500 "Conversion failed: pandoc: parse error") ∧
  "uploads/5-corrupt.md" ∈ os_files (st_os (apiConvert (H := Demo.runtime) req Demo.start).2).
Proof.
  intros file req st1.
  assert (Hfile : req_file req = Some file) by reflexivity.
  assert (Hparse : (parse_options (H := Demo.runtime) (body_options (req_body req))
                      Demo.start).1 = Ok (JObj [])) by reflexivity.
  assert (Hconv : convertFile (H := Demo.runtime) (file_path file)
                    (derive_output_path (H := Demo.runtime) (originalname file)
                       (os_clock (st_os Demo.start)) (body_toFormat (req_body req)))
                    (body_fromFormat (req_body req)) (body_toFormat (req_body req))
                    (JObj []) Demo.start
                  = (Throw "Conversion failed: pandoc: parse error", st1))
    by (vm_compute; reflexivity).
  assert (Hbefore : "uploads/5-corrupt.md" ∈ os_files (st_os Demo.start))
    by (apply (bool_decide_unpack _); vm_compute; exact I).
  assert (Hin : file_path file ∈ os_files (st_os st1))
    by (apply (bool_decide_unpack _); vm_compute; exact I).
  exact (conj Hbefore
           (failed_conversion_leaves_upload (H := Demo.runtime) req file (JObj [])
              Demo.start st1 _ Hfile Hparse Hconv Hin)).
Defined.

Lemma convertFile_outcome_witness :
  let run name :=
    (convertFile (H := Demo.runtime) ("uploads/5-" +:+ name +:+ ".md")
       ("downloads/" +:+ name +:+ "-7.html") "markdown" "html" (JObj []) Demo.start) in
  (run "corrupt").1 = Throw "Conversion failed: pandoc: parse error" ∧
  (∃ cmd, (run "silent").1 = Throw ("Conversion failed: Command failed: " +:+ cmd)) ∧
  (run "ghost").1 = Ok "downloads/ghost-7.html" ∧
  "downloads/ghost-7.html" ∉ os_files (st_os (run "ghost").2).
Proof.
  intros run.
  pose (o := mkOptionFlags false false false false).
  pose (cmd name := buildPandocCommand_body ("uploads/5-" +:+ name +:+ ".md")
                      ("downloads/" +:+ name +:+ "-7.html") "markdown" "html" o).
  assert (Hbuild : ∀ name,
            buildPandocCommand ("uploads/5-" +:+ name +:+ ".md")
              ("downloads/" +:+ name +:+ "-7.html") "markdown" "html" (JObj [])
            = Ok (cmd name)) by reflexivity.
  assert (Hexec : ∀ name,
            exec (Runtime := Demo.runtime) (cmd name) (st_os Demo.start) =
            ((Demo.engine (cmd name) (st_os Demo.start)).1,
             (Demo.engine (cmd name) (st_os Demo.start)).2))
    by (intros name; apply surjective_pairing).
  destruct (convertFile_outcome (H := Demo.runtime) _ _ _ _ _ Demo.start _ _ _
              (Hbuild "corrupt") (Hexec "corrupt")) as (Hstderr & _ & _).
  destruct (convertFile_outcome (H := Demo.runtime) _ _ _ _ _ Demo.start _ _ _
              (Hbuild "silent") (Hexec "silent")) as (_ & Hmessage & _).
  destruct (convertFile_outcome (H := Demo.runtime) _ _ _ _ _ Demo.start _ _ _
              (Hbuild "ghost") (Hexec "ghost")) as (_ & _ & Hok).
  split; [|split; [|split]].
  - refine (Hstderr ("Command failed: " +:+ cmd "corrupt") _ _).
    + vm_compute; reflexivity.
    + vm_compute; discriminate.
  - exists (cmd "silent").
    refine (Hmessage ("Command failed: " +:+ cmd "silent") _ _);
      vm_compute; reflexivity.
  - apply Hok. vm_compute; reflexivity.
  - apply (bool_decide_eq_false_1 _). vm_compute; reflexivity.
Defined.

(** * Further properties of the command builder *)

Lemma jsval_null_or_not (v : jsval) : v = JNull ∨ v ≠ JNull.
Proof. destruct v; first [by left | by right]. Qed.

(** X1: the builder throws exactly when the options are [null], whatever
    the paths and formats; the error is the [TypeError] raised by the read
    of [options.toc]. *)
Theorem buildPandocCommand_throws_iff_null
    (inputPath outputPath fromFormat toFormat : string) (options : jsval) :
  ((∃ e, buildPandocCommand inputPath outputPath fromFormat toFormat options = Throw e)
   ↔ options = JNull) ∧
  (∀ e, buildPandocCommand inputPath outputPath fromFormat toFormat options = Throw e →
        e = "Cannot read properties of null (reading 'toc')").
Proof.
  split; [split|].
  - intros [e He]. destruct (jsval_null_or_not options) as [|Hne]; [done|].
    destruct (read_options_Ok options Hne) as [o Ho].
    unfold buildPandocCommand in He. rewrite Ho in He. discriminate He.
  - intros ->. eexists. reflexivity.
  - intros e He. destruct (jsval_null_or_not options) as [->|Hne].
    + apply (f_equal (λ r, match r with Throw m => m | Ok _ => e end)) in He.
      symmetry. exact He.
    + destruct (read_options_Ok options Hne) as [o Ho].
      unfold buildPandocCommand in He. rewrite Ho in He. discriminate He.
Qed.

(** X2: an options value that is neither an object nor [null] (a JSON
    boolean, number, string or array) sets no option: the command is the
    one built for the empty object. *)
Theorem non_object_options_set_nothing
    (inputPath outputPath fromFormat toFormat : string) (options : jsval) :
  options ≠ JNull → (∀ props, options ≠ JObj props) →
  buildPandocCommand inputPath outputPath fromFormat toFormat options =
  buildPandocCommand inputPath outputPath fromFormat toFormat (JObj []).
Proof.
  intros Hnull Hobj. unfold buildPandocCommand.
  assert (Hread : read_options options = read_options (JObj [])).
  { destruct options; try reflexivity; [by destruct Hnull|by destruct (Hobj props)]. }
  by rewrite Hread.
Qed.

Lemma non_object_options_set_nothing_witness :
  JArr [JStr "toc"] ≠ JNull ∧ (∀ props, JArr [JStr "toc"] ≠ JObj props) ∧
  buildPandocCommand "uploads/1-a.md" "downloads/a-1.html" "markdown" "html"
    (JArr [JStr "toc"]) =
  buildPandocCommand "uploads/1-a.md" "downloads/a-1.html" "markdown" "html" (JObj []).
Proof.
  assert (Hnull : JArr [JStr "toc"] ≠ JNull) by discriminate.
  assert (Hobj : ∀ props, JArr [JStr "toc"] ≠ JObj props) by discriminate.
  exact (conj Hnull (conj Hobj
           (non_object_options_set_nothing _ _ _ _ _ Hnull Hobj))).
Defined.

(** A flag appended by one statement is still there after the statements
    that follow it; the statement that appends it is recognised whether it
    is conditional or not. *)
Ltac appended_flag :=
  repeat first
    [ assumption
    | apply includes_app_r, includes_refl
    | apply add_if_includes_flag
    | apply add_if_includes
    | apply includes_app_l
    | case_bool_decide ].

(** X3: every command is the template, then target- and option-dependent
    flags among which tab preservation always occurs, then the three fixed
    flags, then the citation flag exactly when the bibliography option is
    set. *)
Theorem command_shape
    (inputPath outputPath fromFormat toFormat : string) (options : jsval) (cmd : string) :
  buildPandocCommand inputPath outputPath fromFormat toFormat options = Ok cmd →
  ∃ middle,
    cmd = command_template inputPath outputPath fromFormat toFormat +:+ middle +:+
          closing_flags +:+
          (if option_set options "bibliography" then " --citeproc" else "") ∧
    includes middle " --preserve-tabs" = true.
Proof.
  intros (o & Ho & ->)%buildPandocCommand_Ok.
  destruct (read_options_set _ _ Ho) as (_ & _ & _ & <-).
  rewrite buildPandocCommand_body_split. unfold append_flags.
  match goal with
  | |- context [add_if (opt_bibliography o) _
                  (((?m +:+ " --smart") +:+ _) +:+ _)] => exists m
  end.
  split.
  - f_equal. destruct (opt_bibliography o); unfold add_if, closing_flags;
      rewrite ?str_app_assoc; by rewrite ?str_app_nil_r.
  - appended_flag.
Qed.

Lemma command_shape_witness :
  ∃ cmd middle,
    buildPandocCommand "uploads/1-a.md" "downloads/a-1.pdf" "markdown" "pdf"
      (JObj [("bibliography", JBool true)]) = Ok cmd ∧
    cmd = command_template "uploads/1-a.md" "downloads/a-1.pdf" "markdown" "pdf" +:+
          middle +:+ closing_flags +:+ " --citeproc" ∧
    includes middle " --preserve-tabs" = true.
Proof.
  eexists.
  assert (Hbuild : buildPandocCommand "uploads/1-a.md" "downloads/a-1.pdf" "markdown" "pdf"
                     (JObj [("bibliography", JBool true)])
                   = Ok (buildPandocCommand_body "uploads/1-a.md" "downloads/a-1.pdf"
                           "markdown" "pdf" (mkOptionFlags false false false true)))
    by reflexivity.
  destruct (command_shape _ _ _ _ _ _ Hbuild) as (middle & Hcmd & Hmiddle).
  exists middle. exact (conj Hbuild (conj Hcmd Hmiddle)).
Defined.

(** Like [flags_by_delims], for conditions that also mention the options
    or compare the target format. *)
Ltac flags_by_delims_bool :=
  unfold append_flags, standalone_flag, toc_flag, extract_media_flag;
  repeat case_bool_decide;
  repeat first [ rewrite add_if_delim_eq by reflexivity
               | rewrite includes_delim_eq by reflexivity ];
  eval_includes;
  rewrite ?andb_false_r, ?andb_true_r, ?andb_false_l, ?andb_true_l,
    ?orb_false_r, ?orb_false_l;
  reflexivity.

Lemma flags_number_sections_token (fromFormat toFormat : string) (o : OptionFlags) :
  includes (append_flags fromFormat toFormat o "") "--number-sections" =
  opt_numberSections o.
Proof. flags_by_delims_bool. Qed.

Lemma flags_citeproc_token (fromFormat toFormat : string) (o : OptionFlags) :
  includes (append_flags fromFormat toFormat o "") "--citeproc" = opt_bibliography o.
Proof. flags_by_delims_bool. Qed.

Lemma flags_mathjax_token (fromFormat toFormat : string) (o : OptionFlags) :
  includes (append_flags fromFormat toFormat o "") "--mathjax" =
  bool_decide (toFormat = "html").
Proof. flags_by_delims_bool. Qed.

Lemma flags_css_token (fromFormat toFormat : string) (o : OptionFlags) :
  includes (append_flags fromFormat toFormat o "") "--css=style.css" =
  bool_decide (toFormat = "html") && opt_css o.
Proof. flags_by_delims_bool. Qed.

Lemma flags_pdf_engine_token (fromFormat toFormat : string) (o : OptionFlags) :
  includes (append_flags fromFormat toFormat o "") "--pdf-engine=pdflatex" =
  bool_decide (toFormat = "pdf").
Proof. flags_by_delims_bool. Qed.

Lemma flags_geometry_token (fromFormat toFormat : string) (o : OptionFlags) :
  includes (append_flags fromFormat toFormat o "") "--variable=geometry:margin=1in" =
  bool_decide (toFormat = "pdf").
Proof. flags_by_delims_bool. Qed.

Lemma flags_reference_doc_token (fromFormat toFormat : string) (o : OptionFlags) :
  includes (append_flags fromFormat toFormat o "") "--reference-doc=reference.docx" =
  bool_decide (toFormat = "docx").
Proof. flags_by_delims_bool. Qed.

(** A flag text that occurs in a command whose interpolated strings are
    free of it occurs among the appended flags. *)
Lemma flag_among_appended (pre token inputPath outputPath fromFormat toFormat : string)
    (o : OptionFlags) :
  delim_free token = true →
  forallb (λ w, negb (includes w token)) ["pandoc"; ""; "-f"; "-t"; "-o"] = true →
  free_of token inputPath outputPath fromFormat toFormat →
  includes (buildPandocCommand_body inputPath outputPath fromFormat toFormat o)
    (pre +:+ token) = true →
  includes (append_flags fromFormat toFormat o "") token = true.
Proof.
  intros Hdelim Hwords Hfree Hcmd. apply includes_drop in Hcmd.
  rewrite buildPandocCommand_body_split in Hcmd.
  by eapply free_of_occurrence.
Qed.

(** X4: section numbering is requested whenever the [numberSections]
    option is set, whatever the target format; and in a command whose
    interpolated strings are free of the text [--number-sections] it is
    requested only then. *)
Theorem number_sections_iff_option
    (inputPath outputPath fromFormat toFormat : string) (options : jsval) (cmd : string) :
  buildPandocCommand inputPath outputPath fromFormat toFormat options = Ok cmd →
  (option_set options "numberSections" = true →
   includes cmd " --number-sections" = true) ∧
  (free_of "--number-sections" inputPath outputPath fromFormat toFormat →
   includes cmd " --number-sections" = true →
   option_set options "numberSections" = true).
Proof.
  intros (o & Ho & ->)%buildPandocCommand_Ok.
  destruct (read_options_set _ _ Ho) as (_ & <- & _). split.
  - intros Hset. unfold buildPandocCommand_body, append_flags. rewrite Hset.
    appended_flag.
  - intros Hfree Hcmd. rewrite <- (flags_number_sections_token fromFormat toFormat o).
    by apply (flag_among_appended " " "--number-sections" inputPath outputPath).
Qed.

Lemma number_sections_iff_option_witness :
  let options := JObj [("numberSections", JBool true)] in
  let cmd := buildPandocCommand_body "uploads/1-a.md" "downloads/a-1.rst" "markdown" "rst"
               (mkOptionFlags false true false false) in
  buildPandocCommand "uploads/1-a.md" "downloads/a-1.rst" "markdown" "rst" options
    = Ok cmd ∧
  free_of "--number-sections" "uploads/1-a.md" "downloads/a-1.rst" "markdown" "rst" ∧
  includes cmd " --number-sections" = true ∧
  option_set options "numberSections" = true.
Proof.
  intros options cmd.
  assert (Hbuild : buildPandocCommand "uploads/1-a.md" "downloads/a-1.rst" "markdown" "rst"
                     options = Ok cmd) by reflexivity.
  assert (Hfree : free_of "--number-sections" "uploads/1-a.md" "downloads/a-1.rst"
                    "markdown" "rst") by (repeat split; reflexivity).
  assert (Hset : option_set options "numberSections" = true) by reflexivity.
  destruct (number_sections_iff_option _ _ _ _ _ _ Hbuild) as [Hif Honly].
  exact (conj Hbuild (conj Hfree (conj (Hif Hset) (Honly Hfree (Hif Hset))))).
Defined.

(** X5: citation processing is requested whenever the [bibliography]
    option is set; and in a command whose interpolated strings are free of
    the text [--citeproc] it is requested only then. *)
Theorem citeproc_iff_option
    (inputPath outputPath fromFormat toFormat : string) (options : jsval) (cmd : string) :
  buildPandocCommand inputPath outputPath fromFormat toFormat options = Ok cmd →
  (option_set options "bibliography" = true → includes cmd " --citeproc" = true) ∧
  (free_of "--citeproc" inputPath outputPath fromFormat toFormat →
   includes cmd " --citeproc" = true → option_set options "bibliography" = true).
Proof.
  intros (o & Ho & ->)%buildPandocCommand_Ok.
  destruct (read_options_set _ _ Ho) as (_ & _ & _ & <-). split.
  - intros Hset. unfold buildPandocCommand_body, append_flags. rewrite Hset.
    appended_flag.
  - intros Hfree Hcmd. rewrite <- (flags_citeproc_token fromFormat toFormat o).
    by apply (flag_among_appended " " "--citeproc" inputPath outputPath).
Qed.

Lemma citeproc_iff_option_witness :
  let options := JObj [("bibliography", JBool true)] in
  let cmd := buildPandocCommand_body "uploads/1-a.md" "downloads/a-1.html" "markdown" "html"
               (mkOptionFlags false false false true) in
  buildPandocCommand "uploads/1-a.md" "downloads/a-1.html" "markdown" "html" options
    = Ok cmd ∧
  free_of "--citeproc" "uploads/1-a.md" "downloads/a-1.html" "markdown" "html" ∧
  includes cmd " --citeproc" = true ∧
  option_set options "bibliography" = true.
Proof.
  intros options cmd.
  assert (Hbuild : buildPandocCommand "uploads/1-a.md" "downloads/a-1.html" "markdown"
                     "html" options = Ok cmd) by reflexivity.
  assert (Hfree : free_of "--citeproc" "uploads/1-a.md" "downloads/a-1.html"
                    "markdown" "html") by (repeat split; reflexivity).
  assert (Hset : option_set options "bibliography" = true) by reflexivity.
  destruct (citeproc_iff_option _ _ _ _ _ _ Hbuild) as [Hif Honly].
  exact (conj Hbuild (conj Hfree (conj (Hif Hset) (Honly Hfree (Hif Hset))))).
Defined.

(** X6: for target [html] the command asks for self-contained output with
    MathJax, and for the stylesheet when the [css] option is set; in a
    command whose interpolated strings are free of the texts [--mathjax]
    and [--css=style.css], these flags occur only for target [html], the
    stylesheet only with the option set. *)
Theorem html_flags_iff_target
    (inputPath outputPath fromFormat toFormat : string) (options : jsval) (cmd : string) :
  buildPandocCommand inputPath outputPath fromFormat toFormat options = Ok cmd →
  (toFormat = "html" →
   includes cmd " --self-contained --mathjax" = true ∧
   (option_set options "css" = true → includes cmd " --css=style.css" = true)) ∧
  (free_of "--mathjax" inputPath outputPath fromFormat toFormat →
   includes cmd " --self-contained --mathjax" = true → toFormat = "html") ∧
  (free_of "--css=style.css" inputPath outputPath fromFormat toFormat →
   includes cmd " --css=style.css" = true →
   toFormat = "html" ∧ option_set options "css" = true).
Proof.
  intros (o & Ho & ->)%buildPandocCommand_Ok.
  destruct (read_options_set _ _ Ho) as (_ & _ & <- & _). split; [|split].
  - intros ->. split; [|intros Hset];
      unfold buildPandocCommand_body, append_flags;
      rewrite (bool_decide_eq_true_2 ("html" = "html")) by done.
    + appended_flag.
    + rewrite Hset. appended_flag.
  - intros Hfree Hcmd. apply (bool_decide_eq_true_1 (toFormat = "html")).
    rewrite <- (flags_mathjax_token fromFormat toFormat o).
    by apply (flag_among_appended " --self-contained " "--mathjax" inputPath outputPath).
  - intros Hfree Hcmd.
    apply (flag_among_appended " " "--css=style.css" inputPath outputPath) in Hcmd;
      [|done..].
    rewrite flags_css_token in Hcmd. apply andb_true_iff in Hcmd as [Hhtml Hcss].
    split; [by apply bool_decide_eq_true_1 in Hhtml|done].
Qed.

Lemma html_flags_iff_target_witness :
  let options := JObj [("css", JBool true)] in
  let cmd := buildPandocCommand_body "uploads/1-a.md" "downloads/a-1.html" "markdown" "html"
               (mkOptionFlags false false true false) in
  buildPandocCommand "uploads/1-a.md" "downloads/a-1.html" "markdown" "html" options
    = Ok cmd ∧
  free_of "--mathjax" "uploads/1-a.md" "downloads/a-1.html" "markdown" "html" ∧
  free_of "--css=style.css" "uploads/1-a.md" "downloads/a-1.html" "markdown" "html" ∧
  includes cmd " --self-contained --mathjax" = true ∧
  includes cmd " --css=style.css" = true ∧
  option_set options "css" = true.
Proof.
  intros options cmd.
  assert (Hbuild : buildPandocCommand "uploads/1-a.md" "downloads/a-1.html" "markdown"
                     "html" options = Ok cmd) by reflexivity.
  assert (Hmathjax : free_of "--mathjax" "uploads/1-a.md" "downloads/a-1.html"
                       "markdown" "html") by (repeat split; reflexivity).
  assert (Hcss : free_of "--css=style.css" "uploads/1-a.md" "downloads/a-1.html"
                   "markdown" "html") by (repeat split; reflexivity).
  assert (Hset : option_set options "css" = true) by reflexivity.
  destruct (html_flags_iff_target _ _ _ _ _ _ Hbuild) as (Hif & _ & Honly).
  destruct (Hif eq_refl) as [Hself Hstyle].
  exact (conj Hbuild (conj Hmathjax (conj Hcss (conj Hself (conj (Hstyle Hset)
           (proj2 (Honly Hcss (Hstyle Hset)))))))).
Defined.

(** X7: for target [pdf] the command selects the pdflatex engine and a
    one-inch margin, for target [docx] the reference document; in a command
    whose interpolated strings are free of the respective flag text, each
    of these flags occurs only for its own target. *)
Theorem pdf_docx_flags_iff_target
    (inputPath outputPath fromFormat toFormat : string) (options : jsval) (cmd : string) :
  buildPandocCommand inputPath outputPath fromFormat toFormat options = Ok cmd →
  (toFormat = "pdf" →
   includes cmd " --pdf-engine=pdflatex --variable=geometry:margin=1in" = true) ∧
  (toFormat = "docx" → includes cmd " --reference-doc=reference.docx" = true) ∧
  (free_of "--pdf-engine=pdflatex" inputPath outputPath fromFormat toFormat →
   includes cmd " --pdf-engine=pdflatex" = true → toFormat = "pdf") ∧
  (free_of "--variable=geometry:margin=1in" inputPath outputPath fromFormat toFormat →
   includes cmd " --variable=geometry:margin=1in" = true → toFormat = "pdf") ∧
  (free_of "--reference-doc=reference.docx" inputPath outputPath fromFormat toFormat →
   includes cmd " --reference-doc=reference.docx" = true → toFormat = "docx").
Proof.
  intros (o & Ho & ->)%buildPandocCommand_Ok. split; [|split; [|split; [|split]]].
  - intros ->. unfold buildPandocCommand_body, append_flags.
    rewrite (bool_decide_eq_true_2 ("pdf" = "pdf")) by done.
    rewrite (str_app_assoc _ " --pdf-engine=pdflatex" " --variable=geometry:margin=1in").
    appended_flag.
  - intros ->. unfold buildPandocCommand_body, append_flags.
    rewrite (bool_decide_eq_true_2 ("docx" = "docx")) by done.
    appended_flag.
  - intros Hfree Hcmd. apply (bool_decide_eq_true_1 (toFormat = "pdf")).
    rewrite <- (flags_pdf_engine_token fromFormat toFormat o).
    by apply (flag_among_appended " " "--pdf-engine=pdflatex" inputPath outputPath).
  - intros Hfree Hcmd. apply (bool_decide_eq_true_1 (toFormat = "pdf")).
    rewrite <- (flags_geometry_token fromFormat toFormat o).
    by apply (flag_among_appended " " "--variable=geometry:margin=1in"
                inputPath outputPath).
  - intros Hfree Hcmd. apply (bool_decide_eq_true_1 (toFormat = "docx")).
    rewrite <- (flags_reference_doc_token fromFormat toFormat o).
    by apply (flag_among_appended " " "--reference-doc=reference.docx"
                inputPath outputPath).
Qed.

Lemma pdf_docx_flags_iff_target_witness :
  let cmd := buildPandocCommand_body "uploads/1-a.md" "downloads/a-1.pdf" "markdown" "pdf"
               (mkOptionFlags false false false false) in
  buildPandocCommand "uploads/1-a.md" "downloads/a-1.pdf" "markdown" "pdf" (JObj [])
    = Ok cmd ∧
  free_of "--reference-doc=reference.docx" "uploads/1-a.md" "downloads/a-1.pdf"
    "markdown" "pdf" ∧
  includes cmd " --pdf-engine=pdflatex --variable=geometry:margin=1in" = true ∧
  includes cmd " --reference-doc=reference.docx" = false.
Proof.
  intros cmd.
  assert (Hbuild : buildPandocCommand "uploads/1-a.md" "downloads/a-1.pdf" "markdown"
                     "pdf" (JObj []) = Ok cmd) by reflexivity.
  assert (Hfree : free_of "--reference-doc=reference.docx" "uploads/1-a.md"
                    "downloads/a-1.pdf" "markdown" "pdf") by (repeat split; reflexivity).
  destruct (pdf_docx_flags_iff_target _ _ _ _ _ _ Hbuild) as (Hpdf & _ & _ & _ & Hdocx).
  refine (conj Hbuild (conj Hfree (conj (Hpdf eq_refl) _))).
  apply not_true_is_false. intros Hcmd. by specialize (Hdocx Hfree Hcmd).
Defined.

(** X8: a table of contents is only ever requested together with the
    standalone flag: in a command whose interpolated strings are free of
    the text [--toc-depth=6], the table-of-contents flag implies the
    standalone flag. *)
Theorem toc_flag_implies_standalone_flag
    (inputPath outputPath fromFormat toFormat : string) (options : jsval) (cmd : string) :
  buildPandocCommand inputPath outputPath fromFormat toFormat options = Ok cmd →
  free_of toc_depth_token inputPath outputPath fromFormat toFormat →
  includes cmd toc_flag = true →
  includes cmd standalone_flag = true.
Proof.
  intros (o & _ & ->)%buildPandocCommand_Ok Hfree Hcmd.
  apply (flag_among_appended " --toc " toc_depth_token inputPath outputPath) in Hcmd;
    [|done..].
  rewrite flags_toc_depth_token in Hcmd. apply andb_true_iff in Hcmd as [_ Hin].
  apply flags_standalone_flag. apply array_includes_true in Hin.
  apply array_includes_true. unfold toc_targets in Hin. unfold standalone_targets.
  repeat (apply elem_of_cons in Hin as [->|Hin]; [set_solver|]).
  by apply elem_of_nil in Hin.
Qed.

Lemma toc_flag_implies_standalone_flag_witness :
  let cmd := buildPandocCommand_body "uploads/1-a.md" "downloads/a-1.epub" "markdown" "epub"
               (mkOptionFlags true false false false) in
  buildPandocCommand "uploads/1-a.md" "downloads/a-1.epub" "markdown" "epub"
    (JObj [("toc", JBool true)]) = Ok cmd ∧
  free_of toc_depth_token "uploads/1-a.md" "downloads/a-1.epub" "markdown" "epub" ∧
  includes cmd toc_flag = true ∧
  includes cmd standalone_flag = true.
Proof.
  intros cmd.
  assert (Hbuild : buildPandocCommand "uploads/1-a.md" "downloads/a-1.epub" "markdown"
                     "epub" (JObj [("toc", JBool true)]) = Ok cmd) by reflexivity.
  assert (Hfree : free_of toc_depth_token "uploads/1-a.md" "downloads/a-1.epub"
                    "markdown" "epub") by (repeat split; reflexivity).
  assert (Htoc : includes cmd toc_flag = true) by (vm_compute; reflexivity).
  exact (conj Hbuild (conj Hfree (conj Htoc
           (toc_flag_implies_standalone_flag _ _ _ _ _ _ Hbuild Hfree Htoc)))).
Defined.

(** * Further properties of the extension table and the catalog *)

Lemma catalog_extension_dotted (format ext : string) :
  (format, ext) ∈ output_catalog → String.prefix "." ext = true.
Proof.
  unfold output_catalog. intros Hin.
  repeat (apply elem_of_cons in Hin as [Heq|Hin];
          [apply pair_eq in Heq as [-> ->]; reflexivity|]).
  by apply elem_of_nil in Hin.
Qed.

(** X9: for a format string that is not the name of a property inherited
    from [Object.prototype], the result is a string that starts with a dot:
    the catalog extension for a catalog format and [.txt] for any other
    string. *)
Theorem getOutputExtension_dot_extension (format : string) :
  inherited_property format = None →
  ∃ ext,
    getOutputExtension format = JStr ext ∧
    String.prefix "." ext = true ∧
    ((format, ext) ∈ output_catalog ∨ ((format ∉ output_catalog.*1) ∧ ext = ".txt")).
Proof.
  intros Hinh. destruct (decide (format ∈ output_catalog.*1)) as [Hin|Hout].
  - apply list_elem_of_fmap in Hin as ([format' ext] & -> & Hin). exists ext.
    split; [by apply getOutputExtension_catalog|].
    split; [by eapply catalog_extension_dotted|by left].
  - exists ".txt". split; [by apply getOutputExtension_fallback|]. split; [done|by right].
Qed.

Lemma getOutputExtension_dot_extension_witness :
  inherited_property "no such format" = None ∧
  ∃ ext,
    getOutputExtension "no such format" = JStr ext ∧
    String.prefix "." ext = true ∧
    (("no such format", ext) ∈ output_catalog ∨
     (("no such format" ∉ output_catalog.*1) ∧ ext = ".txt")).
Proof.
  assert (Hinh : inherited_property "no such format" = None) by (vm_compute; reflexivity).
  exact (conj Hinh (getOutputExtension_dot_extension "no such format" Hinh)).
Defined.

(** X10: whatever the format string, the text appended to the output file
    name is not empty. *)
Theorem getOutputExtension_text_nonempty (format : string) :
  toString (getOutputExtension format) ≠ "".
Proof.
  destruct (decide (format ∈ output_catalog.*1)) as [Hin|Hout].
  - apply list_elem_of_fmap in Hin as ([format' ext] & -> & Hin).
    cbn [fst]. rewrite (getOutputExtension_catalog _ _ Hin). cbn [toString].
    apply catalog_extension_dotted in Hin. by destruct ext.
  - unfold getOutputExtension, get_property.
    rewrite own_property_None by exact Hout.
    unfold inherited_property. case_bool_decide; [discriminate|].
    destruct (_ !! format) as [name|]; discriminate.
Qed.

(** X11: the extension table agrees with the catalog served by
    [/api/formats]: every output format of the catalog gets its catalog
    extension; every input format is also an output format, and its first
    listed input extension is that output extension; no output format is
    listed twice. *)
Theorem catalog_agrees_with_extension_table :
  (∀ fmt, fmt ∈ formats_output →
     getOutputExtension (out_value fmt) = JStr (out_extension fmt)) ∧
  (∀ fmt, fmt ∈ formats_input →
     ∃ out, out ∈ formats_output ∧ out_value out = in_value fmt ∧
            head (in_extensions fmt) = Some (out_extension out)) ∧
  NoDup (out_value <$> formats_output).
Proof.
  split; [|split].
  - apply Forall_forall. unfold formats_output.
    repeat (constructor; [by vm_compute|]). constructor.
  - intros fmt Hin.
    assert (Hall : Forall (λ fmt, Exists (λ out, out_value out = in_value fmt ∧
                     head (in_extensions fmt) = Some (out_extension out)) formats_output)
                     formats_input)
      by (apply (bool_decide_unpack _); vm_compute; exact I).
    rewrite Forall_forall in Hall. specialize (Hall fmt Hin).
    apply Exists_exists in Hall as (out & Hout & Hvalue & Hext). eauto.
  - apply (bool_decide_unpack _). by vm_compute.
Qed.

(** * Upload storage *)

Lemma pretty_N_char_digit (x : N) : is_Some (Ascii.is_nat (pretty_N_char x)).
Proof. unfold pretty_N_char. repeat case_match; by eexists. Qed.

Lemma pretty_N_go_digits (x : N) (s : string) :
  digits_only s = true → digits_only (pretty_N_go x s) = true.
Proof.
  revert s. induction (N.lt_wf_0 x) as [x _ IH]. intros s Hs.
  destruct (decide (x = 0)%N) as [->|Hx]; [by rewrite pretty_N_go_0|].
  rewrite pretty_N_go_step by lia. apply IH.
  - apply N.div_lt; lia.
  - cbn [digits_only]. rewrite Hs, andb_true_r.
    apply bool_decide_eq_true_2, pretty_N_char_digit.
Qed.

Lemma pretty_N_digits (n : N) : digits_only (pretty n) = true.
Proof.
  unfold pretty, pretty_N. case_decide; [reflexivity|].
  by apply pretty_N_go_digits.
Qed.

(** A run of digits followed by a dash determines both the digits and what
    follows the dash. *)
Lemma digits_dash_inj (a1 a2 s1 s2 : string) :
  digits_only a1 = true → digits_only a2 = true →
  a1 +:+ "-" +:+ s1 = a2 +:+ "-" +:+ s2 → a1 = a2 ∧ s1 = s2.
Proof.
  revert a2. induction a1 as [|c a1 IH]; intros [|d a2] H1 H2 Heq;
    cbn [digits_only] in H1, H2;
    change ("" +:+ "-" +:+ s1) with (String "-" s1) in Heq;
    change ("" +:+ "-" +:+ s2) with (String "-" s2) in Heq;
    rewrite ?str_app_cons in Heq.
  - by injection Heq as ->.
  - injection Heq as <- _.
    apply andb_true_iff in H2 as [H2 _].
    apply bool_decide_eq_true_1 in H2. by destruct H2.
  - injection Heq as -> _.
    apply andb_true_iff in H1 as [H1 _].
    apply bool_decide_eq_true_1 in H1. by destruct H1.
  - injection Heq as -> Heq.
    apply andb_true_iff in H1 as [_ H1]. apply andb_true_iff in H2 as [_ H2].
    destruct (IH a2 H1 H2 Heq) as [-> ->]. done.
Qed.

(** X12: the name under which an upload is stored determines both the
    clock reading and the original name: two uploads get the same stored
    name exactly when they have the same original name and arrive in the
    same millisecond. *)
Theorem storage_filename_collides_iff (now1 now2 : N) (name1 name2 : string) :
  storage_filename now1 name1 = storage_filename now2 name2 ↔
  now1 = now2 ∧ name1 = name2.
Proof.
  split; [|by intros [-> ->]].
  unfold storage_filename. intros Heq.
  apply digits_dash_inj in Heq as [Hnow ->]; [|apply pretty_N_digits..].
  split; [|done]. by apply (inj pretty).
Qed.

(** * Further properties of the endpoints *)

(** ** Lines of text *)

Lemma split_on_nonempty (c : ascii) (s : string) : split_on c s ≠ [].
Proof.
  destruct s as [|x s]; [done|]. cbn [split_on].
  case_bool_decide; [done|]. by destruct (split_on c s).
Qed.

(** The first piece of a split has no separator in it and is followed in
    the text by nothing or by a separator. *)
Lemma split_on_head (c : ascii) (s : string) :
  ∃ first rest,
    split_on c s = first :: rest ∧
    includes first (String c "") = false ∧
    (s = first ∨ ∃ after, s = first +:+ String c after).
Proof.
  induction s as [|x s (first & rest & Hsplit & Hfree & Hshape)].
  - exists "", []. split; [done|]. split; [done|by left].
  - cbn [split_on]. case_bool_decide as Hx.
    + subst x. exists "", (split_on c s). split; [done|]. split; [done|].
      right. by exists s.
    + rewrite Hsplit. exists (String x first), rest. split; [done|]. split.
      * rewrite includes_cons, Hfree, orb_false_r, prefix_cons.
        by rewrite bool_decide_eq_false_2 by congruence.
      * destruct Hshape as [->|[after ->]]; [by left|].
        right. by exists after.
Qed.

Section EndpointProperties.
Context `{Runtime}.

(** ** The engine probe *)

(** X13: the probe runs exactly the command [pandoc --version] and always
    answers: with [available: true] when the command reported no error,
    and otherwise with [available: false] and one fixed message, whatever
    the cause of the failure. *)
Theorem probe_always_answers (st : St) :
  let out := (exec "pandoc --version" (st_os st)).1 in
  ∃ resp,
    (apiCheckPandoc st).1 = Ok resp ∧
    st_executed (apiCheckPandoc st).2 = st_executed st ++ ["pandoc --version"] ∧
    (exec_error out = None → ∃ version, resp = PAvailable version) ∧
    (exec_error out ≠ None →
     resp = PUnavailable "Pandoc is not installed or not in PATH").
Proof.
  intros out. subst out. unfold apiCheckPandoc, try_catch, mbind, M_bind, checkPandoc.
  destruct (exec "pandoc --version" (st_os st)) as [out os'].
  cbn [fst]. destruct (exec_error out) as [message|]; eexists;
    (split; [reflexivity|]); (split; [reflexivity|]); split; try done.
  intros _. by eexists.
Qed.

(** X14: when the engine is there, the version reported is the first line
    of what it printed: it contains no line feed, and the output is either
    that text alone or that text followed by a line feed. *)
Theorem probe_version_is_first_line (st : St) (out : ExecOutcome) (os' : OS) :
  exec "pandoc --version" (st_os st) = (out, os') →
  exec_error out = None →
  ∃ version,
    (apiCheckPandoc st).1 = Ok (PAvailable version) ∧
    includes version (String newline "") = false ∧
    (exec_stdout out = version ∨
     ∃ after, exec_stdout out = version +:+ String newline after).
Proof.
  intros Hexec Herror.
  destruct (split_on_head newline (exec_stdout out))
    as (first & rest & Hsplit & Hfree & Hshape).
  exists first. split; [|done].
  unfold apiCheckPandoc, try_catch, mbind, M_bind, checkPandoc.
  rewrite Hexec, Herror. cbn [fst]. unfold mret, M_ret, first_line.
  by rewrite Hsplit.
Qed.

End EndpointProperties.

Lemma probe_version_is_first_line_witness :
  let st := mkSt (mkOS ∅ 7) [] in
  let out := mkExecOutcome None Scenario.version_text "" in
  exec (Runtime := Scenario.with_pandoc) "pandoc --version" (st_os st) = (out, st_os st) ∧
  exec_error out = None ∧
  ∃ version,
    (apiCheckPandoc (H := Scenario.with_pandoc) st).1 = Ok (PAvailable version) ∧
    includes version (String newline "") = false ∧
    (exec_stdout out = version ∨
     ∃ after, exec_stdout out = version +:+ String newline after).
Proof.
  intros st out.
  assert (Hexec : exec (Runtime := Scenario.with_pandoc) "pandoc --version" (st_os st)
                  = (out, st_os st)) by reflexivity.
  assert (Herror : exec_error out = None) by reflexivity.
  exact (conj Hexec (conj Herror
           (probe_version_is_first_line (H := Scenario.with_pandoc) st out (st_os st)
              Hexec Herror))).
Defined.

(** The probe of the scenario reports the first of the two lines. *)
Example probe_reports_first_line :
  (apiCheckPandoc (H := Scenario.with_pandoc) (mkSt (mkOS ∅ 7) [])).1
  = Ok (PAvailable "pandoc 3.1.9").
Proof. reflexivity. Qed.

Section HandlerProperties.
Context `{Runtime}.

(** ** How the endpoints run *)

Lemma parse_options_keeps_state (options : option string) (st : St) :
  (parse_options options st).2 = st.
Proof.
  unfold parse_options, mret, M_ret.
  destruct options as [text|]; [case_bool_decide|]; reflexivity.
Qed.

Lemma parse_options_throws (text e : string) (st : St) :
  text ≠ "" → JSON_parse text = Throw e →
  parse_options (Some text) st = (Throw e, st).
Proof.
  intros Htext Hparse. unfold parse_options.
  rewrite bool_decide_eq_false_2 by done. by rewrite Hparse.
Qed.

(** The cleanup callback of the single-file download swallows its own
    failures and runs no command. *)
Lemma cleanupSingle_returns (inputPath outputPath : string) (st : St) :
  ∃ st', try_catch (unlink inputPath ;; unlink outputPath) (λ _, mret tt) st = (Ok tt, st') ∧
         st_executed st' = st_executed st.
Proof.
  assert (Hnothing : runs_nothing
            (try_catch (unlink inputPath ;; unlink outputPath) (λ _, mret tt))).
  { apply runs_nothing_try_catch; [|intros; apply runs_nothing_mret].
    apply runs_nothing_bind; [|intros]; apply runs_nothing_unlink. }
  specialize (Hnothing st). unfold try_catch in Hnothing |- *.
  destruct ((unlink inputPath ;; unlink outputPath) st) as [[[]|e] st1];
    eexists; (split; [reflexivity|exact Hnothing]).
Qed.

(** The single-file endpoint on a request that carries a file. *)
Lemma apiConvert_with_file (req : ConvertRequest) (file : UploadedFile) (st : St) :
  req_file req = Some file →
  let fromFormat := body_fromFormat (req_body req) in
  let toFormat := body_toFormat (req_body req) in
  let outputPath := derive_output_path (originalname file) (os_clock (st_os st)) toFormat in
  apiConvert req st =
  match (parse_options (body_options (req_body req)) st).1 with
  | Throw e => (Ok (RJson 500 e), st)
  | Ok parsedOptions =>
      match convertFile (file_path file) outputPath fromFormat toFormat parsedOptions st with
      | (Throw e, st1) => (Ok (RJson 500 e), st1)
      | (Ok _, st1) =>
          (Ok (if bool_decide (outputPath ∈ os_files (st_os st1))
               then RDownload outputPath
                      (path_parse_name (originalname file) +:+
                       toString (getOutputExtension toFormat))
               else RNoResponse),
           (try_catch (unlink (file_path file) ;; unlink outputPath) (λ _, mret tt) st1).2)
      end
  end.
Proof.
  intros Hfile fromFormat toFormat outputPath.
  unfold apiConvert. rewrite Hfile.
  unfold try_catch at 1. unfold mbind at 1, M_bind at 1.
  rewrite (surjective_pairing (parse_options _ st)), parse_options_keeps_state.
  cbn [fst]. destruct (parse_options _ st).1 as [parsedOptions|e]; [|reflexivity].
  unfold mbind at 1, M_bind at 1. unfold Date_now at 1.
  unfold mbind at 1, M_bind at 1.
  fold fromFormat toFormat outputPath.
  destruct (convertFile _ _ _ _ _ st) as [[p|e] st1]; [|reflexivity].
  unfold mbind at 1, M_bind at 1. unfold res_download at 1.
  unfold mbind at 1, M_bind at 1.
  destruct (cleanupSingle_returns (file_path file) outputPath st1) as (st2 & Hclean & _).
  rewrite Hclean. reflexivity.
Qed.


(** The batch endpoint on a request whose options do not parse. *)
Lemma apiConvertBatch_parse_error (req : BatchRequest) (files : list UploadedFile)
    (st : St) (e : string) :
  req_files req = Some files → files ≠ [] →
  (parse_options (body_options (batch_body req)) st).1 = Throw e →
  apiConvertBatch req st = (Ok (RJson 500 e), st).
Proof.
  intros Hfiles Hne Hparse. unfold apiConvertBatch. rewrite Hfiles.
  destruct files as [|file rest]; [done|].
  unfold try_catch at 1. unfold mbind at 1, M_bind at 1.
  rewrite (surjective_pairing (parse_options _ st)), parse_options_keeps_state, Hparse.
  reflexivity.
Qed.



(** X17: when the options field is not empty and the JSON parser rejects
    it, both endpoints answer with status 500 and the parser's message,
    and leave the state as it was: no command is run and nothing is
    deleted, the uploads included. *)
Theorem malformed_options_rejected (text e : string) (st : St) :
  text ≠ "" → JSON_parse text = Throw e →
  (∀ (file : UploadedFile) (fromFormat toFormat : string),
     apiConvert (mkConvertRequest (Some file) (mkBody fromFormat toFormat (Some text))) st
     = (Ok (RJson 500 e), st)) ∧
  (∀ (file : UploadedFile) (rest : list UploadedFile) (fromFormat toFormat : string),
     apiConvertBatch
       (mkBatchRequest (Some (file :: rest)) (mkBody fromFormat toFormat (Some text))) st
     = (Ok (RJson 500 e), st)).
Proof.
  intros Htext Hparse. split.
  - intros file fromFormat toFormat.
    rewrite (apiConvert_with_file
               (mkConvertRequest (Some file) (mkBody fromFormat toFormat (Some text)))
               file st eq_refl).
    cbn [req_body body_options]. by rewrite (parse_options_throws _ e).
  - intros file rest fromFormat toFormat.
    apply (apiConvertBatch_parse_error
             (mkBatchRequest (Some (file :: rest)) (mkBody fromFormat toFormat (Some text)))
             (file :: rest)); [done..|].
    cbn [batch_body body_options]. by rewrite (parse_options_throws _ e).
Qed.

(** With [null] options every conversion fails before any command is
    run. *)
Lemma convertAll_null_options (files : list UploadedFile) (fromFormat toFormat : string)
    (timestamp : N) (conversions : list Conversion) (st : St) :
  convertAll files fromFormat toFormat JNull timestamp conversions st =
  (Ok (conversions ++
       ((λ file, mkConversion (originalname file) None None
                   (Some "Cannot read properties of null (reading 'toc')") false)
        <$> files)), st).
Proof.
  revert conversions. induction files as [|file rest IH]; intros conversions.
  - cbn [convertAll fmap list_fmap]. by rewrite app_nil_r.
  - rewrite convertAll_cons.
    rewrite (convertFile_throws_before_exec _ _ _ _ JNull st
               "Cannot read properties of null (reading 'toc')") by reflexivity.
    rewrite IH, fmap_cons, <- app_assoc. reflexivity.
Qed.

Lemma archive_entries_failures (files : list UploadedFile) (message : string) :
  archive_entries
    ((λ file, mkConversion (originalname file) None None (Some message) false) <$> files)
  = [].
Proof. induction files as [|file rest IH]; [done|]. by rewrite fmap_cons. Qed.

(** X18: a batch whose options field is the JSON value [null] runs no
    command at all: every file is recorded as failed with the [TypeError]
    of the command builder, and the answer is still the archive download,
    with no entry. *)
Theorem null_options_batch_delivers_empty_archive (req : BatchRequest)
    (files : list UploadedFile) (st : St) :
  req_files req = Some files → files ≠ [] →
  (parse_options (body_options (batch_body req)) st).1 = Ok JNull →
  let timestamp := os_clock (st_os st) in
  (convertAll files (body_fromFormat (batch_body req)) (body_toFormat (batch_body req))
     JNull timestamp [] st).1 =
    Ok ((λ file, mkConversion (originalname file) None None
                   (Some "Cannot read properties of null (reading 'toc')") false)
        <$> files) ∧
  (apiConvertBatch req st).1 =
    Ok (RArchive (path_join "downloads" ("converted-" +:+ pretty timestamp +:+ ".zip"))
          "converted-documents.zip" []) ∧
  st_executed (apiConvertBatch req st).2 = st_executed st.
Proof.
  intros Hfiles Hne Hparse timestamp. subst timestamp.
  destruct (apiConvertBatch_run req files JNull st Hfiles Hne Hparse)
    as (conversions & st1 & st2 & Hloop & _ & Hrun & Hexecuted).
  rewrite convertAll_null_options in Hloop |- *. rewrite app_nil_l in Hloop.
  injection Hloop as <- <-.
  rewrite Hrun, archive_entries_failures. cbn [fst snd]. done.
Qed.

End HandlerProperties.

(** ** The cleanup after a batch *)

#[local] Set Warnings "-clear-no-such-hyp".

Lemma for_each_app {A} (xs ys : list A) (body : A → M unit) (st : St) :
  for_each (xs ++ ys) body st =
  match for_each xs body st with
  | (Ok _, st') => for_each ys body st'
  | (Throw e, st') => (Throw e, st')
  end.
Proof.
  revert st. induction xs as [|x xs IH]; intros st; [done|].
  cbn [app for_each]. unfold mbind, M_bind.
  destruct (body x st) as [[[]|e] st1]; [apply IH|done].
Qed.

Lemma for_each_fmap {A B} (f : A → B) (xs : list A) (body : B → M unit) (st : St) :
  for_each (f <$> xs) body st = for_each xs (λ x, body (f x)) st.
Proof.
  revert st. induction xs as [|x xs IH]; intros st; [done|].
  rewrite fmap_cons. cbn [for_each]. unfold mbind, M_bind.
  destruct (body (f x) st) as [[[]|e] st1]; [apply IH|done].
Qed.

Lemma for_each_archivable (conversions : list Conversion) (st : St) :
  for_each conversions
    (λ conv, if archivable conv then unlink (default "" (conv_path conv)) else mret tt) st
  = for_each (entry_source <$> archive_entries conversions) unlink st.
Proof.
  revert st. induction conversions as [|conv conversions IH]; intros st; [done|].
  cbn [for_each archive_entries]. unfold mbind, M_bind.
  destruct (archivable conv).
  - rewrite fmap_cons. cbn [for_each entry_source]. unfold mbind, M_bind.
    destruct (unlink _ st) as [[[]|e] st1]; [apply IH|done].
  - apply IH.
Qed.

(** The cleanup callback is a sequence of deletions whose failure is
    swallowed: the uploads, the archived outputs, then the archive. *)
Lemma cleanupBatch_as_unlinks (files : list UploadedFile) (conversions : list Conversion)
    (zipPath : string) (st : St) :
  cleanupBatch files conversions zipPath st =
  match for_each (cleanup_paths files conversions) unlink st with
  | (Ok _, st1) =>
      match unlink zipPath st1 with
      | (Ok _, st2) => (Ok tt, st2)
      | (Throw _, st2) => (Ok tt, st2)
      end
  | (Throw _, st1) => (Ok tt, st1)
  end.
Proof.
  unfold cleanupBatch, cleanup_paths, try_catch, mbind, M_bind.
  rewrite for_each_app, for_each_fmap.
  destruct (for_each files _ st) as [[[]|e] st1]; [|done].
  rewrite for_each_archivable.
  destruct (for_each _ unlink st1) as [[[]|e] st2]; [|done].
  by destruct (unlink zipPath st2) as [[[]|e] st3].
Qed.

(** A sequence of deletions succeeds exactly when its paths are pairwise
    distinct and all present, and then removes exactly them; when it fails
    it has removed nothing but listed paths. *)
Lemma unlinks_outcome (paths : list string) (st : St) :
  match for_each paths unlink st with
  | (Ok _, st') =>
      NoDup paths ∧ (∀ p, p ∈ paths → p ∈ os_files (st_os st)) ∧
      os_files (st_os st') = os_files (st_os st) ∖ list_to_set paths
  | (Throw _, st') =>
      ¬ (NoDup paths ∧ ∀ p, p ∈ paths → p ∈ os_files (st_os st)) ∧
      (∀ p, p ∈ os_files (st_os st) → p ∉ paths → p ∈ os_files (st_os st'))
  end.
Proof.
  revert st. induction paths as [|p paths IH]; intros st.
  - cbn [for_each]. unfold mret, M_ret. split; [constructor|].
    split; [by intros p ?%elem_of_nil|]. cbn [list_to_set]. set_solver.
  - cbn [for_each]. unfold mbind, M_bind. unfold unlink at 1.
    case_bool_decide as Hp.
    + specialize (IH (mkSt (mkOS (os_files (st_os st) ∖ {[p]}) (os_clock (st_os st)))
                           (st_executed st))).
      destruct (for_each paths unlink _) as [[[]|e] st'];
        cbn [st_os os_files] in IH.
      * destruct IH as (Hnodup & Hall & Hfiles). split; [|split].
        -- constructor; [|done]. intros Hin%Hall. set_solver.
        -- intros q [->|Hq]%elem_of_cons; [done|]. specialize (Hall q Hq). set_solver.
        -- rewrite Hfiles. cbn [list_to_set]. set_solver.
      * destruct IH as [Hnot Hkeep]. split.
        -- intros [Hnodup Hall]. apply Hnot. apply NoDup_cons in Hnodup as [Hnotin Hnodup].
           split; [done|]. intros q Hq.
           apply elem_of_difference. split; [apply Hall; by right|].
           intros ->%elem_of_singleton. done.
        -- intros q Hq Hnotin. apply Hkeep; [|set_solver].
           apply elem_of_difference. split; [done|].
           intros ->%elem_of_singleton. apply Hnotin. by left.
    + split; [|done]. intros [_ Hall]. apply Hp, Hall. by left.
Qed.

(** X19: when the uploads, the archived outputs and the archive are
    pairwise distinct paths that are all on disk, the cleanup removes
    exactly these files. *)
Theorem batch_cleanup_removes_everything (files : list UploadedFile)
    (conversions : list Conversion) (zipPath : string) (st : St) :
  NoDup (cleanup_paths files conversions ++ [zipPath]) →
  (∀ p, p ∈ cleanup_paths files conversions ++ [zipPath] → p ∈ os_files (st_os st)) →
  os_files (st_os (cleanupBatch files conversions zipPath st).2) =
  os_files (st_os st) ∖ list_to_set (cleanup_paths files conversions ++ [zipPath]).
Proof.
  intros Hnodup Hall. rewrite cleanupBatch_as_unlinks.
  apply NoDup_app in Hnodup as (Hnodup & Hzip & _).
  pose proof (unlinks_outcome (cleanup_paths files conversions) st) as Hout.
  destruct (for_each _ unlink st) as [[[]|e] st1].
  - destruct Hout as (_ & _ & Hfiles). unfold unlink.
    rewrite bool_decide_eq_true_2.
    + cbn [snd st_os os_files]. rewrite Hfiles, list_to_set_app_L.
      cbn [list_to_set]. set_solver.
    + rewrite Hfiles. apply elem_of_difference. split.
      * apply Hall, elem_of_app. right. by left.
      * intros Hin%elem_of_list_to_set. apply (Hzip zipPath); [done|by left].
  - destruct Hout as [Hnot _]. destruct Hnot. split; [done|].
    intros p Hp. apply Hall, elem_of_app. by left.
Qed.

(** X20: the archive, present when the cleanup starts and distinct from
    the other paths, is left on disk exactly when one of the earlier
    deletions fails, that is when an upload or an archived output is
    missing or when a path occurs twice (two conversions that share an
    output path). *)
Theorem batch_cleanup_leaves_archive_iff (files : list UploadedFile)
    (conversions : list Conversion) (zipPath : string) (st : St) :
  zipPath ∈ os_files (st_os st) →
  zipPath ∉ cleanup_paths files conversions →
  zipPath ∈ os_files (st_os (cleanupBatch files conversions zipPath st).2) ↔
  ¬ (NoDup (cleanup_paths files conversions) ∧
     ∀ p, p ∈ cleanup_paths files conversions → p ∈ os_files (st_os st)).
Proof.
  intros Hzip Hnotin. rewrite cleanupBatch_as_unlinks.
  pose proof (unlinks_outcome (cleanup_paths files conversions) st) as Hout.
  destruct (for_each _ unlink st) as [[[]|e] st1].
  - destruct Hout as (Hnodup & Hall & Hfiles). unfold unlink.
    rewrite bool_decide_eq_true_2.
    + cbn [snd st_os os_files]. split; [set_solver|]. intros Hnot. by destruct Hnot.
    + rewrite Hfiles. apply elem_of_difference. split; [done|].
      by intros Hin%elem_of_list_to_set.
  - destruct Hout as [Hnot Hkeep]. cbn [snd]. split; [done|].
    intros _. by apply Hkeep.
Qed.

(** ** Concrete runs of the endpoints *)

Ltac by_evaluation := apply (bool_decide_unpack _); vm_compute; exact I.


(** One Markdown upload converted to HTML: the output is on disk and is
    sent.  An upload on which the engine exits with status 0 without
    writing anything: nothing is sent, and one command has been run. *)
Example single_conversion_runs :
  (apiConvert (H := Demo.runtime)
     (mkConvertRequest (Some (mkUploadedFile "one.md" "uploads/5-one.md")) Demo.body)
     Demo.start).1 = Ok (RDownload "downloads/one-7.html" "one.html") ∧
  (let st := mkSt (mkOS {[ "uploads/5-ghost.md" ]} 7) [] in
   let run := apiConvert (H := Demo.runtime)
                (mkConvertRequest (Some (mkUploadedFile "ghost.md" "uploads/5-ghost.md"))
                   Demo.body) st in
   run.1 = Ok RNoResponse ∧ length (st_executed run.2) = 1).
Proof. split; [|split]; by vm_compute. Qed.

Lemma malformed_options_rejected_witness :
  "{toc" ≠ "" ∧
  JSON_parse (Runtime := Demo.runtime) "{toc" = Throw "Unexpected token in JSON" ∧
  apiConvert (H := Demo.runtime)
    (mkConvertRequest (Some (mkUploadedFile "one.md" "uploads/5-one.md"))
       Scenario.bad_options) Demo.start
  = (Ok (RJson 500 "Unexpected token in JSON"), Demo.start) ∧
  apiConvertBatch (H := Demo.runtime)
    (mkBatchRequest (Some Demo.three_files) Scenario.bad_options) Demo.start
  = (Ok (RJson 500 "Unexpected token in JSON"), Demo.start).
Proof.
  assert (Htext : "{toc" ≠ "") by discriminate.
  assert (Hparse : JSON_parse (Runtime := Demo.runtime) "{toc"
                   = Throw "Unexpected token in JSON") by reflexivity.
  destruct (malformed_options_rejected (H := Demo.runtime) "{toc" _ Demo.start
              Htext Hparse) as [Hsingle Hbatch].
  exact (conj Htext (conj Hparse
           (conj (Hsingle (mkUploadedFile "one.md" "uploads/5-one.md") "markdown" "html")
                 (Hbatch (mkUploadedFile "one.md" "uploads/5-one.md")
                    [ mkUploadedFile "corrupt.md" "uploads/5-corrupt.md";
                      mkUploadedFile "three.md" "uploads/5-three.md" ]
                    "markdown" "html")))).
Defined.

Lemma null_options_batch_delivers_empty_archive_witness :
  let req := mkBatchRequest (Some Demo.three_files) Scenario.null_options in
  req_files req = Some Demo.three_files ∧ Demo.three_files ≠ [] ∧
  (parse_options (H := Demo.runtime) (body_options (batch_body req)) Demo.start).1
    = Ok JNull ∧
  (apiConvertBatch (H := Demo.runtime) req Demo.start).1 =
    Ok (RArchive "downloads/converted-7.zip" "converted-documents.zip" []) ∧
  st_executed (apiConvertBatch (H := Demo.runtime) req Demo.start).2 = [].
Proof.
  intros req.
  assert (Hfiles : req_files req = Some Demo.three_files) by reflexivity.
  assert (Hne : Demo.three_files ≠ []) by discriminate.
  assert (Hparse : (parse_options (H := Demo.runtime) (body_options (batch_body req))
                      Demo.start).1 = Ok JNull) by reflexivity.
  destruct (null_options_batch_delivers_empty_archive (H := Demo.runtime) req
              Demo.three_files Demo.start Hfiles Hne Hparse) as (_ & Hresp & Hexecuted).
  exact (conj Hfiles (conj Hne (conj Hparse (conj Hresp Hexecuted)))).
Defined.

Lemma batch_cleanup_removes_everything_witness :
  let paths := cleanup_paths Demo.three_files Scenario.conversions ++ [Scenario.zip] in
  NoDup paths ∧
  (∀ p, p ∈ paths → p ∈ os_files (st_os Scenario.before_cleanup)) ∧
  os_files (st_os (cleanupBatch Demo.three_files Scenario.conversions Scenario.zip
                     Scenario.before_cleanup).2) =
  os_files (st_os Scenario.before_cleanup) ∖ list_to_set paths.
Proof.
  intros paths.
  assert (Hnodup : NoDup paths) by by_evaluation.
  assert (Hall : ∀ p, p ∈ paths → p ∈ os_files (st_os Scenario.before_cleanup)).
  { apply Forall_forall. by_evaluation. }
  exact (conj Hnodup (conj Hall
           (batch_cleanup_removes_everything Demo.three_files Scenario.conversions
              Scenario.zip Scenario.before_cleanup Hnodup Hall))).
Defined.

Lemma batch_cleanup_leaves_archive_iff_witness :
  let paths := cleanup_paths Scenario.same_name_files Scenario.same_name_conversions in
  Scenario.zip ∈ os_files (st_os Scenario.before_same_name_cleanup) ∧
  (Scenario.zip ∉ paths) ∧
  ¬ NoDup paths ∧
  Scenario.zip ∈
    os_files (st_os (cleanupBatch Scenario.same_name_files Scenario.same_name_conversions
                       Scenario.zip Scenario.before_same_name_cleanup).2).
Proof.
  intros paths.
  assert (Hzip : Scenario.zip ∈ os_files (st_os Scenario.before_same_name_cleanup))
    by by_evaluation.
  assert (Hnotin : Scenario.zip ∉ paths) by by_evaluation.
  assert (Hdup : ¬ NoDup paths) by by_evaluation.
  refine (conj Hzip (conj Hnotin (conj Hdup _))).
  apply (batch_cleanup_leaves_archive_iff Scenario.same_name_files
           Scenario.same_name_conversions Scenario.zip Scenario.before_same_name_cleanup
           Hzip Hnotin).
  intros [Hnodup _]. exact (Hdup Hnodup).
Defined.

(** * Properties of the browser client *)

Module ClientProperties.
Import Client.

Lemma updateConvertButton_consistent (st : State) :
  button_consistent (updateConvertButton st).
Proof.
  unfold button_consistent, updateConvertButton.
  cbn [convertDisabled files outputFormat].
  rewrite negb_false_iff, andb_true_iff, negb_true_iff.
  rewrite bool_decide_eq_true, bool_decide_eq_false.
  destruct (files st); cbn [length]; split; intros [? ?]; split; (done || lia).
Qed.

Lemma step_consistent (a : Action) (st : State) : button_consistent (step a st).
Proof. destruct a; apply updateConvertButton_consistent. Qed.

Lemma length_delete_le {A} (i : nat) (l : list A) : length (delete i l) ≤ length l.
Proof.
  rewrite delete_take_drop, length_app, length_take, length_drop. lia.
Qed.

Lemma splice1_length_le {A} (index : Z) (l : list A) :
  length (splice1 index l) ≤ length l.
Proof. unfold splice1. apply length_delete_le. Qed.

Lemma step_single_at_most_one (a : Action) (st : State) :
  (mode st = "single" → length (files st) ≤ 1) →
  mode (step a st) = "single" → length (files (step a st)) ≤ 1.
Proof.
  intros Hinv. destruct a; cbn [step];
    unfold handleFiles, removeFile, clearFiles, selectMode, selectInputFormat,
      selectOutputFormat, clearFiles, updateConvertButton;
    cbn [mode files]; intros Hmode.
  - rewrite bool_decide_eq_true_2 by done. rewrite length_take. lia.
  - pose proof (splice1_length_le index (files st)). specialize (Hinv Hmode). lia.
  - cbn [length]. lia.
  - cbn [length]. lia.
  - by apply Hinv.
  - by apply Hinv.
Qed.

(** X21: after any sequence of file selections, removals and mode or
    format choices, starting with no file selected, the convert button is
    enabled exactly when at least one file is selected and an output format
    is chosen, and in single mode at most one file is selected. *)
Theorem client_state_invariants (actions : list Action) (st : State) :
  files st = [] → actions ≠ [] →
  button_consistent (run actions st) ∧
  (mode (run actions st) = "single" → length (files (run actions st)) ≤ 1).
Proof.
  intros Hfiles Hne. split.
  - destruct actions as [|a actions _] using rev_ind; [done|].
    unfold run. rewrite foldl_app. apply step_consistent.
  - clear Hne.
    assert (Hstart : mode st = "single" → length (files st) ≤ 1)
      by (rewrite Hfiles; cbn [length]; lia).
    clear Hfiles. revert st Hstart.
    induction actions as [|a actions IH]; intros st Hstart; [done|].
    cbn [run foldl]. apply IH. by apply step_single_at_most_one.
Qed.

Lemma client_state_invariants_witness :
  let start := mkState "batch" [] "" "" (JObj []) true in
  let actions := [ HandleFiles [mkFile "a.md" 10; mkFile "b.md" 20];
                   SelectOutputFormat "html";
                   SelectMode "single";
                   HandleFiles [mkFile "c.md" 30; mkFile "d.md" 40] ] in
  files start = [] ∧ actions ≠ [] ∧
  files (run actions start) = [mkFile "c.md" 30] ∧
  button_consistent (run actions start) ∧
  (mode (run actions start) = "single" → length (files (run actions start)) ≤ 1).
Proof.
  intros start actions.
  assert (Hfiles : files start = []) by reflexivity.
  assert (Hne : actions ≠ []) by discriminate.
  exact (conj Hfiles (conj Hne (conj eq_refl
           (client_state_invariants actions start Hfiles Hne)))).
Defined.

(** X22: removing the file shown at position [index] of the list deletes
    exactly that file: the files before it stay where they are, the files
    after it move up by one, and the list is one shorter. *)
Theorem removeFile_deletes_that_file (index : nat) (st : State) :
  index < length (files st) →
  length (files (removeFile (Z.of_nat index) st)) = length (files st) - 1 ∧
  ∀ j, files (removeFile (Z.of_nat index) st) !! j =
       if decide (j < index) then files st !! j else files st !! S j.
Proof.
  intros Hindex. unfold removeFile, updateConvertButton, splice1. cbn [files].
  assert ((Z.of_nat index <? 0)%Z = false) as -> by lia.
  rewrite Z.min_l, Nat2Z.id by lia. split.
  - by apply length_delete, lookup_lt_is_Some_2.
  - intros j. case_decide.
    + by apply list_lookup_delete_lt.
    + apply list_lookup_delete_ge. lia.
Qed.

Lemma removeFile_deletes_that_file_witness :
  let st := mkState "batch" [mkFile "a.md" 10; mkFile "b.md" 20; mkFile "c.md" 30]
              "" "html" (JObj []) false in
  1 < length (files st) ∧
  files (removeFile 1 st) = [mkFile "a.md" 10; mkFile "c.md" 30] ∧
  length (files (removeFile (Z.of_nat 1) st)) = length (files st) - 1.
Proof.
  intros st.
  assert (Hindex : 1 < length (files st)) by (cbn; lia).
  exact (conj Hindex (conj eq_refl (proj1 (removeFile_deletes_that_file 1 st Hindex)))).
Defined.

Lemma lastIndexOf_absent (s : string) (c : ascii) :
  includes s (String c "") = false → lastIndexOf s c = (-1)%Z.
Proof.
  induction s as [|x s IH]; [done|].
  rewrite includes_cons, prefix_cons, prefix_nil, andb_true_r.
  intros [Hx Hs]%orb_false_iff. cbn [lastIndexOf]. rewrite (IH Hs).
  apply bool_decide_eq_false in Hx.
  rewrite bool_decide_eq_false_2 by congruence. reflexivity.
Qed.

Lemma lastIndexOf_last (stem : string) (c : ascii) (ext : string) :
  includes ext (String c "") = false →
  lastIndexOf (stem +:+ String c ext) c = Z.of_nat (String.length stem).
Proof.
  intros Hext. induction stem as [|x stem IH].
  - rewrite str_app_nil_l. cbn [lastIndexOf String.length].
    rewrite (lastIndexOf_absent ext c Hext).
    by rewrite bool_decide_eq_true_2.
  - rewrite str_app_cons. cbn [lastIndexOf String.length]. rewrite IH.
    destruct (Z.leb_spec 0 (Z.of_nat (String.length stem))); lia.
Qed.

Lemma substring_prefix (stem rest : string) :
  String.substring 0 (String.length stem) (stem +:+ rest) = stem.
Proof.
  induction stem as [|x stem IH]; [by destruct rest|].
  rewrite str_app_cons. cbn [String.length String.substring]. by rewrite IH.
Qed.

Lemma client_extension_is_server_extension (format : string) :
  js_or (get_property extensions format) (JStr ".txt") = getOutputExtension format.
Proof. reflexivity. Qed.

(** X23: for a file name made of a non-empty stem, a dot and an extension
    without dots, the name offered for the download is the stem followed
    by the extension the server gives to the output format: the input
    extension is replaced, and client and server use the same extension. *)
Theorem getOutputFilename_replaces_extension (st : State) (stem ext : string) :
  stem ≠ "" → includes ext "." = false →
  getOutputFilename st (stem +:+ "." +:+ ext) =
  stem +:+ toString (getOutputExtension (outputFormat st)).
Proof.
  intros Hstem Hext. unfold getOutputFilename, substring0.
  rewrite client_extension_is_server_extension.
  change (stem +:+ "." +:+ ext) with (stem +:+ String "."%char ext).
  rewrite (lastIndexOf_last stem "." ext Hext), Nat2Z.id, substring_prefix.
  by rewrite bool_decide_eq_false_2.
Qed.

Lemma getOutputFilename_replaces_extension_witness :
  let st := mkState "single" [mkFile "report.final.docx" 10] "docx" "pdf" (JObj []) false in
  "report.final" ≠ "" ∧ includes "docx" "." = false ∧
  getOutputFilename st "report.final.docx" = "report.final.pdf".
Proof.
  intros st.
  assert (Hstem : "report.final" ≠ "") by discriminate.
  assert (Hext : includes "docx" "." = false) by reflexivity.
  exact (conj Hstem (conj Hext
           (getOutputFilename_replaces_extension st "report.final" "docx" Hstem Hext))).
Defined.

(** X24: a file name without any dot, and a file name whose only dot is its
    first character, is kept whole: the extension of the output format is
    appended to it. *)
Theorem getOutputFilename_keeps_whole_name (st : State) (name : string) :
  includes name "." = false ∨
  (∃ rest, name = "." +:+ rest ∧ includes rest "." = false) →
  getOutputFilename st name =
  name +:+ toString (getOutputExtension (outputFormat st)).
Proof.
  intros Hname. unfold getOutputFilename, substring0.
  rewrite client_extension_is_server_extension.
  assert (Hstem : String.substring 0 (Z.to_nat (lastIndexOf name ".")) name = "").
  { destruct Hname as [Hname|(rest & -> & Hrest)].
    - rewrite (lastIndexOf_absent name "." Hname). by destruct name.
    - change ("." +:+ rest) with ("" +:+ String "."%char rest).
      rewrite (lastIndexOf_last "" "." rest Hrest). reflexivity. }
  rewrite Hstem. by rewrite bool_decide_eq_true_2.
Qed.

Lemma getOutputFilename_keeps_whole_name_witness :
  let st := mkState "single" [mkFile "README" 10] "markdown" "html" (JObj []) false in
  includes "README" "." = false ∧
  getOutputFilename st "README" = "README.html" ∧
  getOutputFilename st ".gitignore" = ".gitignore.html".
Proof.
  intros st.
  assert (Hname : includes "README" "." = false) by reflexivity.
  assert (Hdot : ∃ rest, ".gitignore" = "." +:+ rest ∧ includes rest "." = false)
    by (exists "gitignore"; split; reflexivity).
  exact (conj Hname
           (conj (getOutputFilename_keeps_whole_name st "README" (or_introl Hname))
                 (getOutputFilename_keeps_whole_name st ".gitignore" (or_intror Hdot)))).
Defined.

(** X25: the options object the client builds from its four checkboxes is
    read by the command builder under the same four names: the builder
    does not throw on it and each option is set exactly when its checkbox
    is checked. *)
Theorem checkboxes_reach_the_builder
    (optToc optNumberSections optBibliography optCss : bool) (st : State) :
  read_options
    (options (updateOptions optToc optNumberSections optBibliography optCss st)) =
  Ok (mkOptionFlags optToc optNumberSections optCss optBibliography).
Proof.
  destruct optToc, optNumberSections, optBibliography, optCss; reflexivity.
Qed.

Lemma formFiles_nonempty (st : State) : files st ≠ [] → formFiles st ≠ [].
Proof. unfold formFiles. case_bool_decide; [|done]. by destruct (files st). Qed.

(** X26: when the button is enabled in a state where it reflects the
    selection, the request the client sends carries at least one file, a
    non-empty target format and a non-empty source format, which is
    [markdown] when no input format was chosen. *)
Theorem enabled_button_sends_complete_request (stringify : jsval → string) (st : State) :
  button_consistent st → convertDisabled st = false →
  formFiles st ≠ [] ∧
  body_toFormat (formFields stringify st) ≠ "" ∧
  body_fromFormat (formFields stringify st) ≠ "" ∧
  (inputFormat st = "" → body_fromFormat (formFields stringify st) = "markdown").
Proof.
  intros Hbutton Henabled. apply Hbutton in Henabled as [Hfiles Hformat].
  split; [by apply formFiles_nonempty|]. split; [done|].
  unfold formFields. cbn [body_fromFormat].
  split; [by case_bool_decide|]. intros ->. by rewrite bool_decide_eq_true_2.
Qed.

Lemma enabled_button_sends_complete_request_witness :
  let st := run [HandleFiles [mkFile "a.md" 10]; SelectOutputFormat "html"]
              (mkState "single" [] "" "" (JObj []) true) in
  button_consistent st ∧ convertDisabled st = false ∧
  formFiles st ≠ [] ∧
  body_toFormat (formFields toString st) ≠ "" ∧
  body_fromFormat (formFields toString st) ≠ "" ∧
  (inputFormat st = "" → body_fromFormat (formFields toString st) = "markdown").
Proof.
  intros st.
  assert (Hbutton : button_consistent st) by apply step_consistent.
  assert (Henabled : convertDisabled st = false) by reflexivity.
  exact (conj Hbutton (conj Henabled
           (enabled_button_sends_complete_request toString st Hbutton Henabled))).
Defined.

End ClientProperties.
